(** * Fiscalization API: receipt pipeline, fiscal-day controller and canonical codec

    A shallow embedding of the Go sources

    - [internal/utils/signature.go]   (canonical codec, hashing),
    - [internal/models/enums.go]      (enumerations and their names),
    - [internal/repository/*.go]      (the SQL statements of the persistence port),
    - the service package             (ReceiptService, FiscalDayService,
                                       ValidationService),

    followed by the properties of the specification that concern them.

    Conventions.
    - Go [int]/[int64] values are [Z]; arithmetic that the program performs
      on them is wrapped to 64 bits ([wrap64]).
    - Go [string] and [[]byte] values are Rocq [string]s (sequences of
      8-bit characters), so that raw hash bytes can be appended to text
      exactly as [strings.Builder] does.
    - Go [float64] values are Rocq primitive floats (IEEE 754 binary64).
    - A nil pointer is [None]; dereferencing it is the outcome [Panicked].
    - The relational store is a record of tables; each repository
      function is the function computed by its SQL statement. *)

From Stdlib Require Import ZArith String Ascii List Bool Lia Floats DecimalString Sorted Permutation.
From stdpp Require Import gmap strings list fin_maps.
Import ListNotations.

Local Open Scope string_scope.
Local Open Scope Z_scope.

(* ===================================================================== *)
(** ** Go primitives                                                      *)
(* ===================================================================== *)

Module Go.

(** Two's complement wrap-around of a 64-bit signed integer. *)
Definition wrap64 (z : Z) : Z := (z + 2 ^ 63) mod 2 ^ 64 - 2 ^ 63.

(** [a + b] on Go's 64-bit [int]. *)
Definition add (a b : Z) : Z := wrap64 (a + b).

(** [strconv.Itoa] / [strconv.FormatInt(_, 10)]. *)
Definition Itoa (z : Z) : string := NilZero.string_of_int (Z.to_int z).

(** One byte of [strings.ToUpper]: the ASCII letters a-z are mapped to
    A-Z.  (Exact for ASCII input; Go additionally maps non-ASCII
    letters of well-formed UTF-8 text.) *)
Definition upper_byte (c : ascii) : ascii :=
  let n := N_of_ascii c in
  if ((97 <=? n) && (n <=? 122))%N then ascii_of_N (n - 32) else c.

Fixpoint ToUpper (s : string) : string :=
  match s with
  | EmptyString => EmptyString
  | String c r => String (upper_byte c) (ToUpper r)
  end.

Definition byte (n : Z) : ascii := ascii_of_N (Z.to_N n).

(** The conversion [string(i)] of an integer [i]: the UTF-8 encoding of
    the code point [i], or of U+FFFD when [i] is not a valid code point. *)
Definition string_of_rune (r : Z) : string :=
  if (r <? 0) || (1114111 <? r) || ((55296 <=? r) && (r <=? 57343)) then
    String (byte 239) (String (byte 191) (String (byte 189) EmptyString))
  else if r <? 128 then
    String (byte r) EmptyString
  else if r <? 2048 then
    String (byte (192 + r / 64)) (String (byte (128 + r mod 64)) EmptyString)
  else if r <? 65536 then
    String (byte (224 + r / 4096))
      (String (byte (128 + (r / 64) mod 64))
         (String (byte (128 + r mod 64)) EmptyString))
  else
    String (byte (240 + r / 262144))
      (String (byte (128 + (r / 4096) mod 64))
         (String (byte (128 + (r / 64) mod 64))
            (String (byte (128 + r mod 64)) EmptyString))).

(** Left padding with zeros up to [width] characters. *)
Fixpoint zeros (n : nat) : string :=
  match n with O => EmptyString | S k => String "0" (zeros k) end.

Definition pad (width : nat) (s : string) : string :=
  zeros (width - String.length s) +:+ s.

(** [make([]byte, n)]: [n] zero bytes. *)
Fixpoint make_bytes (n : nat) : string :=
  match n with O => EmptyString | S k => String (byte 0) (make_bytes k) end.

(** [appendInt] of package time: sign, then the digits padded to [width]. *)
Definition appendInt (x : Z) (width : nat) : string :=
  if x <? 0 then "-" +:+ pad width (Itoa (- x)) else pad width (Itoa x).

(** *** float64 *)

(** [f * 100] *)
Definition times100 (f : float) : float := PrimFloat.mul f 100%float.

(** The conversion [int64(f)]: the fraction is discarded (truncation
    toward zero).  Outside the int64 range, and for NaN and infinities,
    Go leaves the result to the implementation; amd64 yields the
    minimal int64, which is what is written here. *)
Definition int64_of_float (f : float) : Z :=
  match Prim2SF f with
  | S754_zero _ => 0
  | S754_finite s m e =>
      let mag := if 0 <=? e then Z.pos m * 2 ^ e else Z.pos m / 2 ^ (- e) in
      let v := if s then - mag else mag in
      if (- 2 ^ 63 <=? v) && (v <? 2 ^ 63) then v else - 2 ^ 63
  | _ => - 2 ^ 63
  end.

(** Rounding of the rational [num / den] ([den > 0]) to the nearest
    integer, ties to even. *)
Definition round_half_even (num den : Z) : Z :=
  let q := num / den in
  let r := num mod den in
  if den <? 2 * r then q + 1
  else if (2 * r =? den) && Z.odd q then q + 1
  else q.

(** [fmt.Sprintf("%.2f", f)]: the exact value of [f], correctly rounded
    to two decimals. *)
Definition Sprintf_2f (f : float) : string :=
  match Prim2SF f with
  | S754_nan => "NaN"
  | S754_infinity false => "+Inf"
  | S754_infinity true => "-Inf"
  | S754_zero s => (if s then "-" else "") +:+ "0.00"
  | S754_finite s m e =>
      let n := if 0 <=? e then Z.pos m * 2 ^ e * 100
               else round_half_even (Z.pos m * 100) (2 ^ (- e)) in
      (if s then "-" else "") +:+ Itoa (n / 100) +:+ "." +:+ pad 2 (Itoa (n mod 100))
  end.

(** *** sort.Slice *)

(** Go sorts slices shorter than 12 elements by insertion: element [i]
    is swapped leftwards while [less(i, i-1)].  [bubble] is that inner
    loop on the reversed sorted prefix.  For keys that compare equal the
    input order is kept; longer slices use an unstable algorithm that
    may order such elements differently. *)
Section Sort.
Context {A : Type} (less : A -> A -> bool).

Fixpoint bubble (x : A) (rev_prefix : list A) : list A :=
  match rev_prefix with
  | [] => [x]
  | y :: r => if less x y then y :: bubble x r else x :: y :: r
  end.

Definition SortSlice (l : list A) : list A :=
  rev (fold_left (fun acc x => bubble x acc) l []).
End Sort.

(** *** time.Time *)

(** The wall-clock reading of a [time.Time]. *)
Record Time := mkTime {
  year : Z; month : Z; day : Z; hour : Z; minute : Z; second : Z
}.

(** [t.Format("2006-01-02")] *)
Definition FormatDate (t : Time) : string :=
  appendInt (year t) 4 +:+ "-" +:+ appendInt (month t) 2 +:+ "-" +:+ appendInt (day t) 2.

(** [t.Format("2006-01-02T15:04:05")] *)
Definition FormatDateTime (t : Time) : string :=
  FormatDate t +:+ "T" +:+ appendInt (hour t) 2 +:+ ":" +:+ appendInt (minute t) 2
    +:+ ":" +:+ appendInt (second t) 2.

End Go.

(* ===================================================================== *)
(** ** internal/models                                                    *)
(* ===================================================================== *)

(** Each struct is a record in a module of its name, so that the fields
    keep the names they have in the source. *)

Inductive DeviceOperatingMode := DeviceOperatingModeOnline | DeviceOperatingModeOffline.

Inductive FiscalDayStatus :=
| FiscalDayStatusClosed
| FiscalDayStatusOpened
| FiscalDayStatusCloseInitiated
| FiscalDayStatusCloseFailed.

Definition FiscalDayStatus_String (s : FiscalDayStatus) : string :=
  match s with
  | FiscalDayStatusClosed => "FiscalDayClosed"
  | FiscalDayStatusOpened => "FiscalDayOpened"
  | FiscalDayStatusCloseInitiated => "FiscalDayCloseInitiated"
  | FiscalDayStatusCloseFailed => "FiscalDayCloseFailed"
  end.

Inductive FiscalDayReconciliationMode :=
| FiscalDayReconciliationModeAuto
| FiscalDayReconciliationModeManual.

Definition FiscalDayReconciliationMode_String (m : FiscalDayReconciliationMode) : string :=
  match m with
  | FiscalDayReconciliationModeAuto => "Auto"
  | FiscalDayReconciliationModeManual => "Manual"
  end.

(** [FiscalCounterType] and [MoneyType], their iota positions and their
    [String] methods.  The struct [FiscalDayCounter] that the services and
    the codec use does not carry these types but plain [int]s. *)
Inductive FiscalCounterType :=
| FiscalCounterTypeSaleByTax
| FiscalCounterTypeSaleTaxByTax
| FiscalCounterTypeCreditNoteByTax
| FiscalCounterTypeCreditNoteTaxByTax
| FiscalCounterTypeDebitNoteByTax
| FiscalCounterTypeDebitNoteTaxByTax
| FiscalCounterTypeBalanceByMoneyType.

Definition FiscalCounterType_iota (t : FiscalCounterType) : Z :=
  match t with
  | FiscalCounterTypeSaleByTax => 0
  | FiscalCounterTypeSaleTaxByTax => 1
  | FiscalCounterTypeCreditNoteByTax => 2
  | FiscalCounterTypeCreditNoteTaxByTax => 3
  | FiscalCounterTypeDebitNoteByTax => 4
  | FiscalCounterTypeDebitNoteTaxByTax => 5
  | FiscalCounterTypeBalanceByMoneyType => 6
  end.

Definition FiscalCounterType_String (t : FiscalCounterType) : string :=
  match t with
  | FiscalCounterTypeSaleByTax => "SaleByTax"
  | FiscalCounterTypeSaleTaxByTax => "SaleTaxByTax"
  | FiscalCounterTypeCreditNoteByTax => "CreditNoteByTax"
  | FiscalCounterTypeCreditNoteTaxByTax => "CreditNoteTaxByTax"
  | FiscalCounterTypeDebitNoteByTax => "DebitNoteByTax"
  | FiscalCounterTypeDebitNoteTaxByTax => "DebitNoteTaxByTax"
  | FiscalCounterTypeBalanceByMoneyType => "BalanceByMoneyType"
  end.

Inductive MoneyType :=
| MoneyTypeCash | MoneyTypeCard | MoneyTypeMobileWallet | MoneyTypeCoupon
| MoneyTypeCredit | MoneyTypeBankTransfer | MoneyTypeOther.

Definition MoneyType_iota (t : MoneyType) : Z :=
  match t with
  | MoneyTypeCash => 0 | MoneyTypeCard => 1 | MoneyTypeMobileWallet => 2
  | MoneyTypeCoupon => 3 | MoneyTypeCredit => 4 | MoneyTypeBankTransfer => 5
  | MoneyTypeOther => 6
  end.

Definition MoneyType_String (t : MoneyType) : string :=
  match t with
  | MoneyTypeCash => "Cash" | MoneyTypeCard => "Card"
  | MoneyTypeMobileWallet => "MobileWallet" | MoneyTypeCoupon => "Coupon"
  | MoneyTypeCredit => "Credit" | MoneyTypeBankTransfer => "BankTransfer"
  | MoneyTypeOther => "Other"
  end.

Inductive ReceiptType := ReceiptTypeFiscalInvoice | ReceiptTypeCreditNote | ReceiptTypeDebitNote.

Definition ReceiptType_String (t : ReceiptType) : string :=
  match t with
  | ReceiptTypeFiscalInvoice => "FiscalInvoice"
  | ReceiptTypeCreditNote => "CreditNote"
  | ReceiptTypeDebitNote => "DebitNote"
  end.

Inductive ReceiptLineType := ReceiptLineTypeSale | ReceiptLineTypeDiscount.

Inductive ValidationColor := ValidationColorGrey | ValidationColorYellow | ValidationColorRed.

#[global] Instance DeviceOperatingMode_eq_dec : EqDecision DeviceOperatingMode.
Proof. solve_decision. Defined.
#[global] Instance FiscalDayStatus_eq_dec : EqDecision FiscalDayStatus.
Proof. solve_decision. Defined.
#[global] Instance FiscalDayReconciliationMode_eq_dec : EqDecision FiscalDayReconciliationMode.
Proof. solve_decision. Defined.
#[global] Instance ReceiptType_eq_dec : EqDecision ReceiptType.
Proof. solve_decision. Defined.
#[global] Instance ValidationColor_eq_dec : EqDecision ValidationColor.
Proof. solve_decision. Defined.

(** Error codes of [internal/models/errors.go] used by the services. *)
Definition ErrCodeDEV01 : string := "DEV01".
Definition ErrCodeFISC01 : string := "FISC01".
Definition ErrCodeFISC02 : string := "FISC02".
Definition ErrCodeFISC03 : string := "FISC03".
Definition ErrCodeFISC04 : string := "FISC04".
Definition ErrCodeRCPT01 : string := "RCPT01".
Definition ErrCodeRCPT04 : string := "RCPT04".

Module SignatureData.
Record t := mk {
  Hash : string;
  Signature : string
}.
End SignatureData.

Module SignatureDataEx.
Record t := mk {
  Data : SignatureData.t;            (* the embedded SignatureData *)
  CertificateThumbprint : string
}.
End SignatureDataEx.

Module ReceiptLine.
Record t := mk {
  ReceiptLineType_ : ReceiptLineType;
  ReceiptLineNo : Z;
  ReceiptLineHSCode : option string;
  ReceiptLineName : string;
  ReceiptLinePrice : option float;
  ReceiptLineQuantity : float;
  ReceiptLineTotal : float;
  TaxCode : option string;
  TaxPercent : option float;
  TaxID : Z
}.
End ReceiptLine.

Module ReceiptTax.
Record t := mk {
  TaxCode : option string;
  TaxPercent : option float;
  TaxID : Z;
  TaxAmount : float;
  SalesAmountWithTax : float
}.
End ReceiptTax.

Module Payment.
Record t := mk {
  MoneyTypeCode : MoneyType;
  PaymentAmount : float
}.
End Payment.

Module Buyer.
Record t := mk {
  BuyerRegisterName : string;
  BuyerTIN : string
}.
End Buyer.

Module CreditDebitNote.
Record t := mk {
  ReceiptID : option Z;
  DeviceID : option Z;
  ReceiptGlobalNo : option Z;
  FiscalDayNo : option Z
}.
End CreditDebitNote.

Module Receipt.
Record t := mk {
  ID : Z;
  ReceiptID : Z;
  DeviceID : Z;
  FiscalDayID : Z;
  ReceiptType_ : ReceiptType;
  ReceiptCurrency : string;
  ReceiptCounter : Z;
  ReceiptGlobalNo : Z;
  InvoiceNo : string;
  BuyerData : option Buyer.t;
  ReceiptNotes : option string;
  ReceiptDate : Go.Time;
  CreditDebitNote_ : option CreditDebitNote.t;
  ReceiptLinesTaxInclusive : bool;
  ReceiptLines : list ReceiptLine.t;
  ReceiptTaxes : list ReceiptTax.t;
  ReceiptPayments : list Payment.t;
  ReceiptTotal : float;
  ReceiptDeviceSignature : SignatureData.t;
  ReceiptServerSignature : option SignatureDataEx.t;
  ReceiptHash : option string;
  ValidationColor_ : option ValidationColor;
  ValidationErrors : list string;
  ServerDate : option Go.Time
}.

(** Assignments to single fields of a [*Receipt]. *)
Definition set_FiscalDayID (v : Z) (r : t) : t :=
  mk (ID r) (ReceiptID r) (DeviceID r) v (ReceiptType_ r) (ReceiptCurrency r)
     (ReceiptCounter r) (ReceiptGlobalNo r) (InvoiceNo r) (BuyerData r) (ReceiptNotes r)
     (ReceiptDate r) (CreditDebitNote_ r) (ReceiptLinesTaxInclusive r) (ReceiptLines r)
     (ReceiptTaxes r) (ReceiptPayments r) (ReceiptTotal r) (ReceiptDeviceSignature r)
     (ReceiptServerSignature r) (ReceiptHash r) (ValidationColor_ r) (ValidationErrors r)
     (ServerDate r).

Definition set_ReceiptHash (v : option string) (r : t) : t :=
  mk (ID r) (ReceiptID r) (DeviceID r) (FiscalDayID r) (ReceiptType_ r) (ReceiptCurrency r)
     (ReceiptCounter r) (ReceiptGlobalNo r) (InvoiceNo r) (BuyerData r) (ReceiptNotes r)
     (ReceiptDate r) (CreditDebitNote_ r) (ReceiptLinesTaxInclusive r) (ReceiptLines r)
     (ReceiptTaxes r) (ReceiptPayments r) (ReceiptTotal r) (ReceiptDeviceSignature r)
     (ReceiptServerSignature r) v (ValidationColor_ r) (ValidationErrors r)
     (ServerDate r).

Definition set_Validation (c : option ValidationColor) (e : list string) (r : t) : t :=
  mk (ID r) (ReceiptID r) (DeviceID r) (FiscalDayID r) (ReceiptType_ r) (ReceiptCurrency r)
     (ReceiptCounter r) (ReceiptGlobalNo r) (InvoiceNo r) (BuyerData r) (ReceiptNotes r)
     (ReceiptDate r) (CreditDebitNote_ r) (ReceiptLinesTaxInclusive r) (ReceiptLines r)
     (ReceiptTaxes r) (ReceiptPayments r) (ReceiptTotal r) (ReceiptDeviceSignature r)
     (ReceiptServerSignature r) (ReceiptHash r) c e (ServerDate r).

Definition set_ServerDate (v : option Go.Time) (r : t) : t :=
  mk (ID r) (ReceiptID r) (DeviceID r) (FiscalDayID r) (ReceiptType_ r) (ReceiptCurrency r)
     (ReceiptCounter r) (ReceiptGlobalNo r) (InvoiceNo r) (BuyerData r) (ReceiptNotes r)
     (ReceiptDate r) (CreditDebitNote_ r) (ReceiptLinesTaxInclusive r) (ReceiptLines r)
     (ReceiptTaxes r) (ReceiptPayments r) (ReceiptTotal r) (ReceiptDeviceSignature r)
     (ReceiptServerSignature r) (ReceiptHash r) (ValidationColor_ r) (ValidationErrors r) v.

Definition set_ReceiptServerSignature (v : option SignatureDataEx.t) (r : t) : t :=
  mk (ID r) (ReceiptID r) (DeviceID r) (FiscalDayID r) (ReceiptType_ r) (ReceiptCurrency r)
     (ReceiptCounter r) (ReceiptGlobalNo r) (InvoiceNo r) (BuyerData r) (ReceiptNotes r)
     (ReceiptDate r) (CreditDebitNote_ r) (ReceiptLinesTaxInclusive r) (ReceiptLines r)
     (ReceiptTaxes r) (ReceiptPayments r) (ReceiptTotal r) (ReceiptDeviceSignature r)
     v (ReceiptHash r) (ValidationColor_ r) (ValidationErrors r) (ServerDate r).

Definition set_IDs (id receiptID : Z) (r : t) : t :=
  mk id receiptID (DeviceID r) (FiscalDayID r) (ReceiptType_ r) (ReceiptCurrency r)
     (ReceiptCounter r) (ReceiptGlobalNo r) (InvoiceNo r) (BuyerData r) (ReceiptNotes r)
     (ReceiptDate r) (CreditDebitNote_ r) (ReceiptLinesTaxInclusive r) (ReceiptLines r)
     (ReceiptTaxes r) (ReceiptPayments r) (ReceiptTotal r) (ReceiptDeviceSignature r)
     (ReceiptServerSignature r) (ReceiptHash r) (ValidationColor_ r) (ValidationErrors r)
     (ServerDate r).
End Receipt.

Module FiscalDayCounter.
Record t := mk {
  FiscalCounterType_ : Z;
  FiscalCounterCurrency : string;
  FiscalCounterTaxID : option Z;
  FiscalCounterTaxPercent : option float;
  FiscalCounterMoneyType : option Z;
  FiscalCounterValue : float
}.
End FiscalDayCounter.

Module FiscalDayDocumentQuantity.
Record t := mk {
  ReceiptType_ : Z;
  ReceiptCurrency : string;
  ReceiptQuantity : Z;
  ReceiptTotalAmount : float
}.
End FiscalDayDocumentQuantity.

Module FiscalDay.
Record t := mk {
  ID : Z;
  DeviceID : Z;
  FiscalDayNo : Z;
  FiscalDayOpened : Go.Time;
  FiscalDayClosed : option Go.Time;
  Status : FiscalDayStatus;
  ReconciliationMode : option FiscalDayReconciliationMode;
  FiscalDayDeviceSignature : option SignatureData.t;
  FiscalDayServerSignature : option SignatureDataEx.t;
  ClosingErrorCode : option Z;
  LastReceiptGlobalNo : option Z
}.

(** The assignment [fiscalDay.LastReceiptGlobalNo = v]. *)
Definition set_LastReceiptGlobalNo (v : option Z) (d : t) : t :=
  mk (ID d) (DeviceID d) (FiscalDayNo d) (FiscalDayOpened d) (FiscalDayClosed d) (Status d)
     (ReconciliationMode d) (FiscalDayDeviceSignature d) (FiscalDayServerSignature d)
     (ClosingErrorCode d) v.
End FiscalDay.

Module Device.
Record t := mk {
  DeviceID : Z;
  TaxpayerID : Z;
  OperatingMode : DeviceOperatingMode
}.
End Device.

Module Taxpayer.
Record t := mk {
  ID : Z;
  VATNumber : option string;
  TaxPayerDayMaxHrs : Z
}.
End Taxpayer.

Module Tax.
Record t := mk {
  TaxID : Z;
  TaxPercent : option float;
  TaxValidFrom : Go.Time;
  TaxValidTill : option Go.Time
}.
End Tax.

Module OpenFiscalDayRequest.
Record t := mk { DeviceID : Z }.
End OpenFiscalDayRequest.

Module OpenFiscalDayResponse.
Record t := mk { OperationID : string; FiscalDayNo : Z }.
End OpenFiscalDayResponse.

Module CloseFiscalDayRequest.
Record t := mk {
  DeviceID : Z;
  FiscalDayDeviceSignature : option SignatureData.t;
  FiscalDayCounters : list FiscalDayCounter.t
}.
End CloseFiscalDayRequest.

Module CloseFiscalDayResponse.
Record t := mk {
  OperationID : string;
  FiscalDayServerSignature : SignatureDataEx.t;
  FiscalDayCounters : list FiscalDayCounter.t;
  FiscalDayDocumentQuantities : list FiscalDayDocumentQuantity.t
}.
End CloseFiscalDayResponse.

(** [GetFiscalDayStatusResponse = GetStatusResponse] *)
Module GetStatusResponse.
Record t := mk {
  OperationID : string;
  FiscalDayStatus_ : string;
  FiscalDayNo : option Z;
  FiscalDayReconciliationMode_ : option string;
  FiscalDayServerSignature : option SignatureDataEx.t;
  FiscalDayClosed : option Go.Time;
  LastReceiptGlobalNo : option Z;
  FiscalDayCounters : list FiscalDayCounter.t;
  FiscalDayDocumentQuantities : list FiscalDayDocumentQuantity.t
}.
End GetStatusResponse.

Module SubmitReceiptRequest.
Record t := mk { DeviceID : Z; Receipt_ : Receipt.t }.
End SubmitReceiptRequest.

Module SubmitReceiptResponse.
Record t := mk {
  OperationID : string;
  ReceiptID : Z;
  ServerDate : Go.Time;
  ReceiptServerSignature : SignatureDataEx.t
}.
End SubmitReceiptResponse.

(* ===================================================================== *)
(** ** internal/utils/signature.go: the canonical codec                   *)
(* ===================================================================== *)

Module utils.

Definition opt_string (o : option string) : string :=
  match o with Some s => s | None => "" end.

(** The comparison function handed to [sort.Slice] for receipt taxes. *)
Definition tax_less (a b : ReceiptTax.t) : bool :=
  if negb (ReceiptTax.TaxID a =? ReceiptTax.TaxID b)
  then ReceiptTax.TaxID a <? ReceiptTax.TaxID b
  else String.ltb (opt_string (ReceiptTax.TaxCode a)) (opt_string (ReceiptTax.TaxCode b)).

(** What the loop body writes for one tax. *)
Definition tax_bytes (tax : ReceiptTax.t) : string :=
  opt_string (ReceiptTax.TaxCode tax)
  +:+ (match ReceiptTax.TaxPercent tax with Some p => Go.Sprintf_2f p | None => "" end)
  +:+ Go.Itoa (Go.int64_of_float (Go.times100 (ReceiptTax.TaxAmount tax)))
  +:+ Go.Itoa (Go.int64_of_float (Go.times100 (ReceiptTax.SalesAmountWithTax tax))).

Definition concat_map {A} (f : A -> string) (l : list A) : string :=
  fold_right (fun x acc => f x +:+ acc) "" l.

(** Item 6 of the receipt encoding: [strconv.FormatInt(int64(receipt.ReceiptTotal * 100), 10)]. *)
Definition totalCents (receipt : Receipt.t) : Z :=
  Go.int64_of_float (Go.times100 (Receipt.ReceiptTotal receipt)).

(** The contents of the [strings.Builder] of [GenerateReceiptHash] after
    items 1 to 7. *)
Definition receipt_canonical (receipt : Receipt.t) : string :=
  Go.Itoa (Receipt.DeviceID receipt)
  +:+ Go.ToUpper (ReceiptType_String (Receipt.ReceiptType_ receipt))
  +:+ Go.ToUpper (Receipt.ReceiptCurrency receipt)
  +:+ Go.Itoa (Receipt.ReceiptGlobalNo receipt)
  +:+ Go.FormatDateTime (Receipt.ReceiptDate receipt)
  +:+ Go.Itoa (totalCents receipt)
  +:+ concat_map tax_bytes (Go.SortSlice tax_less (Receipt.ReceiptTaxes receipt)).

(** The variable [data] of [GenerateReceiptHash]: item 8 is appended when
    [previousHash != nil]. *)
Definition receipt_hash_data (receipt : Receipt.t) (previousHash : option string) : string :=
  receipt_canonical receipt +:+ opt_string previousHash.

(** The comparison function handed to [sort.Slice] for counters. *)
Definition counter_less (a b : FiscalDayCounter.t) : bool :=
  if negb (FiscalDayCounter.FiscalCounterType_ a =? FiscalDayCounter.FiscalCounterType_ b)
  then FiscalDayCounter.FiscalCounterType_ a <? FiscalDayCounter.FiscalCounterType_ b
  else if negb (String.eqb (FiscalDayCounter.FiscalCounterCurrency a)
                           (FiscalDayCounter.FiscalCounterCurrency b))
  then String.ltb (FiscalDayCounter.FiscalCounterCurrency a)
                  (FiscalDayCounter.FiscalCounterCurrency b)
  else
    match FiscalDayCounter.FiscalCounterTaxID a, FiscalDayCounter.FiscalCounterTaxID b with
    | Some x, Some y => x <? y
    | _, _ =>
        match FiscalDayCounter.FiscalCounterMoneyType a,
              FiscalDayCounter.FiscalCounterMoneyType b with
        | Some x, Some y => x <? y
        | _, _ => false
        end
    end.

(** What the loop body of the two fiscal-day hashes writes for one counter. *)
Definition counter_bytes (counter : FiscalDayCounter.t) : string :=
  Go.ToUpper (Go.Itoa (FiscalDayCounter.FiscalCounterType_ counter))
  +:+ Go.ToUpper (FiscalDayCounter.FiscalCounterCurrency counter)
  +:+ (match FiscalDayCounter.FiscalCounterTaxPercent counter with
       | Some p => Go.Sprintf_2f p
       | None =>
           match FiscalDayCounter.FiscalCounterMoneyType counter with
           | Some m => Go.ToUpper (Go.Itoa m)
           | None => ""
           end
       end)
  +:+ Go.Itoa (Go.int64_of_float (Go.times100 (FiscalDayCounter.FiscalCounterValue counter))).

(** The variable [data] of [GenerateFiscalDayHash]. *)
Definition fiscal_day_hash_data (deviceID fiscalDayNo : Z) (fiscalDayDate : string)
    (counters : list FiscalDayCounter.t) : string :=
  Go.Itoa deviceID +:+ Go.Itoa fiscalDayNo +:+ fiscalDayDate
  +:+ concat_map counter_bytes (Go.SortSlice counter_less counters).

(** The variable [data] of [GenerateFiscalDayServerHash]. *)
Definition fiscal_day_server_hash_data (deviceID fiscalDayNo : Z)
    (fiscalDayDate fiscalDayUpdated : string)
    (reconciliationMode : FiscalDayReconciliationMode)
    (counters : list FiscalDayCounter.t) (deviceSignature : option string) : string :=
  Go.Itoa deviceID +:+ Go.Itoa fiscalDayNo +:+ fiscalDayDate +:+ fiscalDayUpdated
  +:+ Go.ToUpper (FiscalDayReconciliationMode_String reconciliationMode)
  +:+ concat_map counter_bytes (Go.SortSlice counter_less counters)
  +:+ (match reconciliationMode, deviceSignature with
       | FiscalDayReconciliationModeAuto, Some sig => sig
       | _, _ => ""
       end).

Section Hash.
(** [crypto/sha256.Sum256], as a function from bytes to bytes. *)
Variable sha256 : string -> string.

Definition GenerateReceiptHash (receipt : Receipt.t) (previousHash : option string) : string :=
  sha256 (receipt_hash_data receipt previousHash).

Definition GenerateFiscalDayHash (deviceID fiscalDayNo : Z) (fiscalDayDate : string)
    (counters : list FiscalDayCounter.t) : string :=
  sha256 (fiscal_day_hash_data deviceID fiscalDayNo fiscalDayDate counters).

Definition GenerateFiscalDayServerHash (deviceID fiscalDayNo : Z)
    (fiscalDayDate fiscalDayUpdated : string)
    (reconciliationMode : FiscalDayReconciliationMode)
    (counters : list FiscalDayCounter.t) (deviceSignature : option string) : string :=
  sha256 (fiscal_day_server_hash_data deviceID fiscalDayNo fiscalDayDate
            fiscalDayUpdated reconciliationMode counters deviceSignature).
End Hash.

End utils.

(* ===================================================================== *)
(** ** The persistence port                                               *)
(* ===================================================================== *)

(** The tables of [migrations/000001_initial_schema.up.sql] that the
    receipt pipeline and the fiscal-day controller touch.  A receipt row
    is a [Receipt.t] together with its lines, taxes and payments; the two
    BIGSERIAL columns of [receipts] and the one of [fiscal_days] are the
    three sequences.  Amount columns hold the values as submitted. *)
Module Store.
Record t := mk {
  devices : list Device.t;
  taxpayers : list Taxpayer.t;
  taxes : list Tax.t;
  fiscal_days : list FiscalDay.t;
  fiscal_days_id_seq : Z;
  fiscal_counters : list (Z * FiscalDayCounter.t);
  receipts : list Receipt.t;
  receipts_id_seq : Z;
  receipts_receipt_id_seq : Z
}.

Definition set_fiscal_days (v : list FiscalDay.t) (s : t) : t :=
  mk (devices s) (taxpayers s) (taxes s) v (fiscal_days_id_seq s) (fiscal_counters s)
     (receipts s) (receipts_id_seq s) (receipts_receipt_id_seq s).

Definition set_fiscal_counters (v : list (Z * FiscalDayCounter.t)) (s : t) : t :=
  mk (devices s) (taxpayers s) (taxes s) (fiscal_days s) (fiscal_days_id_seq s) v
     (receipts s) (receipts_id_seq s) (receipts_receipt_id_seq s).
End Store.

(** Values of an INTEGER column. *)
Definition int4 (z : Z) : bool := (- 2 ^ 31 <=? z) && (z <? 2 ^ 31).

(** [ORDER BY key DESC LIMIT 1] *)
Fixpoint max_by {A} (key : A -> Z) (l : list A) : option A :=
  match l with
  | [] => None
  | x :: r =>
      match max_by key r with
      | None => Some x
      | Some y => if key y <? key x then Some x else Some y
      end
  end.

Definition time_key (t : Go.Time) : list Z :=
  [Go.year t; Go.month t; Go.day t; Go.hour t; Go.minute t; Go.second t].

Fixpoint lex_ltb (a b : list Z) : bool :=
  match a, b with
  | x :: a', y :: b' => (x <? y) || ((x =? y) && lex_ltb a' b')
  | _, _ => false
  end.

Definition time_ltb (a b : Go.Time) : bool := lex_ltb (time_key a) (time_key b).
Definition time_leb (a b : Go.Time) : bool := negb (time_ltb b a).

Module repository.

(** *** device_repository.go *)

Definition GetByDeviceID (s : Store.t) (deviceID : Z) : option Device.t :=
  find (fun d => Device.DeviceID d =? deviceID) (Store.devices s).

Definition GetTaxpayer (s : Store.t) (taxpayerID : Z) : option Taxpayer.t :=
  find (fun t => Taxpayer.ID t =? taxpayerID) (Store.taxpayers s).

Definition GetApplicableTaxes (CURRENT_DATE : Go.Time) (s : Store.t) : list Tax.t :=
  List.filter (fun t => time_leb (Tax.TaxValidFrom t) CURRENT_DATE
                   && match Tax.TaxValidTill t with
                      | None => true
                      | Some till => time_leb CURRENT_DATE till
                      end)
         (Store.taxes s).

(** *** fiscalDayRepository *)

(** [Create]: INSERT of (device_id, fiscal_day_no, fiscal_day_opened,
    status); the other columns are NULL and [id] comes from the sequence.
    The statement fails on UNIQUE(device_id, fiscal_day_no), on the
    foreign key to [devices] and on a day number outside INTEGER. *)
Definition Create (s : Store.t) (fiscalDay : FiscalDay.t) : option Store.t :=
  if existsb (fun d => (FiscalDay.DeviceID d =? FiscalDay.DeviceID fiscalDay)
                       && (FiscalDay.FiscalDayNo d =? FiscalDay.FiscalDayNo fiscalDay))
             (Store.fiscal_days s)
     || negb (existsb (fun d => Device.DeviceID d =? FiscalDay.DeviceID fiscalDay)
                      (Store.devices s))
     || negb (int4 (FiscalDay.FiscalDayNo fiscalDay))
  then None
  else
    let row := FiscalDay.mk (Store.fiscal_days_id_seq s) (FiscalDay.DeviceID fiscalDay)
                 (FiscalDay.FiscalDayNo fiscalDay) (FiscalDay.FiscalDayOpened fiscalDay)
                 None (FiscalDay.Status fiscalDay) None None None None None in
    Some (Store.mk (Store.devices s) (Store.taxpayers s) (Store.taxes s)
            (Store.fiscal_days s ++ [row]) (Store.fiscal_days_id_seq s + 1)
            (Store.fiscal_counters s) (Store.receipts s) (Store.receipts_id_seq s)
            (Store.receipts_receipt_id_seq s)).

(** [GetCurrent]: WHERE device_id = $1 ORDER BY fiscal_day_no DESC LIMIT 1 *)
Definition GetCurrent (s : Store.t) (deviceID : Z) : option FiscalDay.t :=
  max_by FiscalDay.FiscalDayNo
    (List.filter (fun d => FiscalDay.DeviceID d =? deviceID) (Store.fiscal_days s)).

(** [Update]: the seven columns of the SET clause, WHERE id = $8. *)
Definition update_row (fiscalDay row : FiscalDay.t) : FiscalDay.t :=
  if FiscalDay.ID row =? FiscalDay.ID fiscalDay then
    FiscalDay.mk (FiscalDay.ID row) (FiscalDay.DeviceID row) (FiscalDay.FiscalDayNo row)
      (FiscalDay.FiscalDayOpened row)
      (FiscalDay.FiscalDayClosed fiscalDay) (FiscalDay.Status fiscalDay)
      (FiscalDay.ReconciliationMode fiscalDay) (FiscalDay.FiscalDayDeviceSignature fiscalDay)
      (FiscalDay.FiscalDayServerSignature fiscalDay) (FiscalDay.ClosingErrorCode fiscalDay)
      (FiscalDay.LastReceiptGlobalNo fiscalDay)
  else row.

Definition Update (s : Store.t) (fiscalDay : FiscalDay.t) : Store.t :=
  Store.set_fiscal_days (map (update_row fiscalDay) (Store.fiscal_days s)) s.

(** [CreateCounters]: DELETE the counters of the day, then INSERT the
    submitted ones whose value is not zero. *)
Definition CreateCounters (s : Store.t) (fiscalDayID : Z)
    (counters : list FiscalDayCounter.t) : Store.t :=
  Store.set_fiscal_counters
    (List.filter (fun row => negb (fst row =? fiscalDayID)) (Store.fiscal_counters s)
     ++ map (fun c => (fiscalDayID, c))
          (List.filter (fun c => negb (PrimFloat.eqb (FiscalDayCounter.FiscalCounterValue c) 0%float))
                  counters))
    s.

(** ORDER BY fiscal_counter_type, fiscal_counter_currency,
    fiscal_counter_tax_id (NULLs last). *)
Definition counter_row_less (a b : FiscalDayCounter.t) : bool :=
  if negb (FiscalDayCounter.FiscalCounterType_ a =? FiscalDayCounter.FiscalCounterType_ b)
  then FiscalDayCounter.FiscalCounterType_ a <? FiscalDayCounter.FiscalCounterType_ b
  else if negb (String.eqb (FiscalDayCounter.FiscalCounterCurrency a)
                           (FiscalDayCounter.FiscalCounterCurrency b))
  then String.ltb (FiscalDayCounter.FiscalCounterCurrency a)
                  (FiscalDayCounter.FiscalCounterCurrency b)
  else
    match FiscalDayCounter.FiscalCounterTaxID a, FiscalDayCounter.FiscalCounterTaxID b with
    | Some x, Some y => x <? y
    | Some _, None => true
    | None, _ => false
    end.

Definition GetCounters (s : Store.t) (fiscalDayID : Z) : list FiscalDayCounter.t :=
  Go.SortSlice counter_row_less
    (map snd
       (List.filter (fun row => (fst row =? fiscalDayID)
                           && negb (PrimFloat.eqb (FiscalDayCounter.FiscalCounterValue (snd row)) 0%float))
               (Store.fiscal_counters s))).

(** [counterKey]: the counter type, the tax ID and the money type are
    integers, and the conversion [string(i)] of an integer yields the
    UTF-8 text of the code point [i], not its decimal digits. *)
Definition counterKey (c : FiscalDayCounter.t) : string :=
  Go.string_of_rune (FiscalDayCounter.FiscalCounterType_ c) +:+ "_"
  +:+ FiscalDayCounter.FiscalCounterCurrency c +:+ "_"
  +:+ (match FiscalDayCounter.FiscalCounterTaxID c with
       | Some i => Go.string_of_rune i +:+ "_" | None => "" end)
  +:+ (match FiscalDayCounter.FiscalCounterTaxPercent c with
       | Some p => Go.Sprintf_2f p +:+ "_" | None => "" end)
  +:+ (match FiscalDayCounter.FiscalCounterMoneyType c with
       | Some m => Go.string_of_rune m | None => "" end).

(** The loops [for _, c := range l { m[counterKey(c)] = c.FiscalCounterValue }]. *)
Definition counterMap (l : list FiscalDayCounter.t) : gmap string float :=
  fold_left (fun m c => <[counterKey c := FiscalDayCounter.FiscalCounterValue c]> m) l ∅.

(** The constant [0.01] of type float64. *)
Definition tolerance : float := 0x1.47ae147ae147bp-7%float.

(** The body of the loop over [submittedMap]: true when the loop goes on. *)
Definition counter_close (actualMap : gmap string float) (entry : string * float) : bool :=
  match actualMap !! fst entry with
  | None => false
  | Some actualVal =>
      let diff := PrimFloat.sub (snd entry) actualVal in
      let diff := if PrimFloat.ltb diff 0%float then PrimFloat.opp diff else diff in
      negb (PrimFloat.ltb tolerance diff)
  end.

Definition compareCounters (submitted actual : list FiscalDayCounter.t) : bool :=
  let submittedMap := counterMap submitted in
  let actualMap := counterMap actual in
  if negb (size submittedMap =? size actualMap)%nat then false
  else forallb (counter_close actualMap) (map_to_list submittedMap).

(** *** receiptRepository *)

(** [CreateWithLines]: one transaction inserting the receipt row and its
    lines, taxes and payments.  The INSERT names eighteen columns;
    [receipt_server_signature], [validation_color], [validation_errors]
    and [server_date] are not among them and stay NULL.  [id] and
    [receipt_id] come from their sequences and are written back into the
    receipt (RETURNING).  The statement fails on
    UNIQUE(device_id, receipt_global_no), on the foreign keys to [devices]
    and [fiscal_days], and on counters outside INTEGER. *)
Definition CreateWithLines (s : Store.t) (receipt : Receipt.t)
    : option (Receipt.t * Store.t) :=
  if existsb (fun r => (Receipt.DeviceID r =? Receipt.DeviceID receipt)
                       && (Receipt.ReceiptGlobalNo r =? Receipt.ReceiptGlobalNo receipt))
             (Store.receipts s)
     || negb (existsb (fun d => Device.DeviceID d =? Receipt.DeviceID receipt)
                      (Store.devices s))
     || negb (existsb (fun d => FiscalDay.ID d =? Receipt.FiscalDayID receipt)
                      (Store.fiscal_days s))
     || negb (int4 (Receipt.ReceiptCounter receipt))
     || negb (int4 (Receipt.ReceiptGlobalNo receipt))
  then None
  else
    let receipt' := Receipt.set_IDs (Store.receipts_id_seq s)
                      (Store.receipts_receipt_id_seq s) receipt in
    let row := Receipt.set_ServerDate None
                 (Receipt.set_Validation None []
                    (Receipt.set_ReceiptServerSignature None receipt')) in
    Some (receipt',
          Store.mk (Store.devices s) (Store.taxpayers s) (Store.taxes s)
            (Store.fiscal_days s) (Store.fiscal_days_id_seq s) (Store.fiscal_counters s)
            (Store.receipts s ++ [row]) (Store.receipts_id_seq s + 1)
            (Store.receipts_receipt_id_seq s + 1)).

Definition GetByReceiptID (s : Store.t) (receiptID : Z) : option Receipt.t :=
  find (fun r => Receipt.ReceiptID r =? receiptID) (Store.receipts s).

Definition GetByGlobalNo (s : Store.t) (deviceID globalNo : Z) : option Receipt.t :=
  find (fun r => (Receipt.DeviceID r =? deviceID) && (Receipt.ReceiptGlobalNo r =? globalNo))
       (Store.receipts s).

(** [GetPreviousReceipt]: WHERE device_id = $1 AND fiscal_day_id = $2 AND
    receipt_global_no < $3 ORDER BY receipt_global_no DESC LIMIT 1 *)
Definition GetPreviousReceipt (s : Store.t) (deviceID fiscalDayID globalNo : Z)
    : option Receipt.t :=
  max_by Receipt.ReceiptGlobalNo
    (List.filter (fun r => (Receipt.DeviceID r =? deviceID)
                      && (Receipt.FiscalDayID r =? fiscalDayID)
                      && (Receipt.ReceiptGlobalNo r <? globalNo))
            (Store.receipts s)).

(** Queries that do not call [loadReceiptRelations] return the row alone. *)
Definition row_only (r : Receipt.t) : Receipt.t :=
  Receipt.mk (Receipt.ID r) (Receipt.ReceiptID r) (Receipt.DeviceID r) (Receipt.FiscalDayID r)
    (Receipt.ReceiptType_ r) (Receipt.ReceiptCurrency r) (Receipt.ReceiptCounter r)
    (Receipt.ReceiptGlobalNo r) (Receipt.InvoiceNo r) (Receipt.BuyerData r)
    (Receipt.ReceiptNotes r) (Receipt.ReceiptDate r) (Receipt.CreditDebitNote_ r)
    (Receipt.ReceiptLinesTaxInclusive r) [] [] [] (Receipt.ReceiptTotal r)
    (Receipt.ReceiptDeviceSignature r) (Receipt.ReceiptServerSignature r)
    (Receipt.ReceiptHash r) (Receipt.ValidationColor_ r) (Receipt.ValidationErrors r)
    (Receipt.ServerDate r).

Definition is_blocking_color (c : option ValidationColor) : bool :=
  bool_decide (c = Some ValidationColorRed) || bool_decide (c = Some ValidationColorGrey).

(** [GetReceiptsWithValidationErrors]: WHERE fiscal_day_id = $1 AND
    (validation_color = 'Red' OR validation_color = 'Grey')
    ORDER BY receipt_global_no *)
Definition GetReceiptsWithValidationErrors (s : Store.t) (fiscalDayID : Z)
    : list Receipt.t :=
  Go.SortSlice (fun a b => Receipt.ReceiptGlobalNo a <? Receipt.ReceiptGlobalNo b)
    (map row_only
       (List.filter (fun r => (Receipt.FiscalDayID r =? fiscalDayID)
                         && is_blocking_color (Receipt.ValidationColor_ r))
               (Store.receipts s))).

Definition refers_to (originalReceiptID : Z) (r : Receipt.t) : bool :=
  match Receipt.CreditDebitNote_ r with
  | Some cdn =>
      match CreditDebitNote.ReceiptID cdn with
      | Some i => i =? originalReceiptID
      | None => false
      end
  | None => false
  end.

Definition notes_of_type (s : Store.t) (ty : ReceiptType) (originalReceiptID : Z)
    : list Receipt.t :=
  Go.SortSlice (fun a b => time_ltb (Receipt.ReceiptDate a) (Receipt.ReceiptDate b))
    (map row_only
       (List.filter (fun r => bool_decide (Receipt.ReceiptType_ r = ty)
                         && refers_to originalReceiptID r)
               (Store.receipts s))).

Definition GetCreditDebitNotes (s : Store.t) (originalReceiptID : Z)
    : list Receipt.t * list Receipt.t :=
  (notes_of_type s ReceiptTypeCreditNote originalReceiptID,
   notes_of_type s ReceiptTypeDebitNote originalReceiptID).

End repository.

(* ===================================================================== *)
(** ** The service package                                                *)
(* ===================================================================== *)

(** What a service call ends with: a response ([return resp, nil]), an
    [*models.APIError], another error value, or a run-time panic. *)
Inductive Outcome (A : Type) : Type :=
| Returned (resp : A)
| APIError (status : Z) (title errorCode : string)
| Failed (msg : string)
| Panicked.
Arguments Returned {A} resp.
Arguments APIError {A} status title errorCode.
Arguments Failed {A} msg.
Arguments Panicked {A}.

(** What a call draws from its surroundings: the clock ([time.Now]), the
    random operation identifier ([uuid.New().String()]), the server key
    ([CryptoService.SignData], which fails without a usable key and is
    randomised for ECDSA keys) and the database's CURRENT_DATE. *)
Module Env.
Record t := mk {
  now : Go.Time;
  uuid : string;
  SignData : string -> option string;
  CURRENT_DATE : Go.Time
}.
End Env.

Definition generateOperationID (env : Env.t) : string := Env.uuid env.

Module ValidationResult.
Record t := mk {
  IsValid : bool;
  Color : option ValidationColor;
  Errors : list string
}.
End ValidationResult.

Module service.

(** *** ValidationService *)

Definition addError (code message : string) (color : ValidationColor)
    (r : ValidationResult.t) : ValidationResult.t :=
  ValidationResult.mk false
    (match ValidationResult.Color r with
     | None => Some color
     | Some old =>
         if bool_decide (color = ValidationColorRed) then Some color
         else if bool_decide (color = ValidationColorYellow)
                 && bool_decide (old = ValidationColorGrey) then Some color
         else Some old
     end)
    (ValidationResult.Errors r ++ [code +:+ ": " +:+ message]).

Definition isValidCurrency (currency : string) : bool :=
  existsb (fun valid => String.eqb (Go.ToUpper currency) valid)
          ["USD"; "ZWL"; "EUR"; "GBP"; "ZAR"].

(** Currency validation (RCPT010). *)
Definition rule_RCPT010 (receipt : Receipt.t) (result : ValidationResult.t)
    : ValidationResult.t :=
  if negb (isValidCurrency (Receipt.ReceiptCurrency receipt))
  then addError "RCPT010" "Wrong currency code is used" ValidationColorRed result
  else result.

(** Receipt counter validation (RCPT011). *)
Definition rule_RCPT011 (receipt : Receipt.t) (previousReceipt : option Receipt.t)
    (result : ValidationResult.t) : ValidationResult.t :=
  match previousReceipt with
  | None =>
      if negb (Receipt.ReceiptCounter receipt =? 1)
      then addError "RCPT011" "Receipt counter is not sequential" ValidationColorGrey result
      else result
  | Some previous =>
      if negb (Receipt.ReceiptCounter receipt =? Go.add (Receipt.ReceiptCounter previous) 1)
      then addError "RCPT011" "Receipt counter is not sequential" ValidationColorRed result
      else result
  end.

(** Receipt global number validation (RCPT012). *)
Definition rule_RCPT012 (receipt : Receipt.t) (previousReceipt : option Receipt.t)
    (result : ValidationResult.t) : ValidationResult.t :=
  match previousReceipt with
  | None =>
      if negb (Receipt.ReceiptGlobalNo receipt =? 1)
         && negb (Receipt.ReceiptCounter receipt =? 1)
      then addError "RCPT012" "Receipt global number is not sequential" ValidationColorGrey result
      else result
  | Some previous =>
      if negb (Receipt.ReceiptGlobalNo receipt =? Go.add (Receipt.ReceiptGlobalNo previous) 1)
         && negb (Receipt.ReceiptGlobalNo receipt =? 1)
      then addError "RCPT012" "Receipt global number is not sequential" ValidationColorRed result
      else result
  end.

Section Services.

(** [crypto/sha256.Sum256] and [encoding/base64.StdEncoding.EncodeToString]. *)
Variable sha256 : string -> string.
Variable EncodeBase64 : string -> string.

(** The rules of [ValidateReceipt] that follow RCPT012 (RCPT014 to
    RCPT048), as the function they apply to the result accumulated so far;
    its arguments are the current time and the six arguments of
    [ValidateReceipt]. *)
Variable laterRules :
  Go.Time -> Receipt.t -> option Receipt.t -> Taxpayer.t -> list Tax.t -> Go.Time -> Z ->
  ValidationResult.t -> ValidationResult.t.

(** [ValidationService.ValidateCreditDebitNote]. *)
Variable ValidateCreditDebitNote :
  Receipt.t -> option Receipt.t -> list Receipt.t -> list Receipt.t -> ValidationResult.t.

(** The five aggregate queries of [calculateActualCounters] and the one of
    [GetFiscalDayDocumentQuantities] (GROUP BY with SUM and COUNT, evaluated
    by the database in DECIMAL arithmetic), as functions of the receipts
    table and the fiscal day. *)
Variable calculateActualCounters : list Receipt.t -> Z -> list FiscalDayCounter.t.
Variable GetFiscalDayDocumentQuantities : list Receipt.t -> Z -> list FiscalDayDocumentQuantity.t.

Definition ValidateReceipt (now : Go.Time) (receipt : Receipt.t)
    (previousReceipt : option Receipt.t) (taxpayer : Taxpayer.t)
    (applicableTaxes : list Tax.t) (fiscalDayOpened : Go.Time) (fiscalDayMaxHrs : Z)
    : ValidationResult.t :=
  let result := ValidationResult.mk true None [] in
  let result := rule_RCPT010 receipt result in
  let result := rule_RCPT011 receipt previousReceipt result in
  let result := rule_RCPT012 receipt previousReceipt result in
  laterRules now receipt previousReceipt taxpayer applicableTaxes fiscalDayOpened
    fiscalDayMaxHrs result.

Definition ValidateCounters (s : Store.t) (fiscalDayID : Z)
    (submittedCounters : list FiscalDayCounter.t) : bool :=
  repository.compareCounters submittedCounters
    (calculateActualCounters (Store.receipts s) fiscalDayID).

(** *** FiscalDayService *)

Definition OpenFiscalDay (env : Env.t) (req : OpenFiscalDayRequest.t) (s : Store.t)
    : Outcome OpenFiscalDayResponse.t * Store.t :=
  let deviceID := OpenFiscalDayRequest.DeviceID req in
  match repository.GetByDeviceID s deviceID with
  | None => (APIError 422 "Device not found" ErrCodeDEV01, s)
  | Some device =>
  if bool_decide (Device.OperatingMode device = DeviceOperatingModeOffline)
  then (APIError 422 "Device operating mode is Offline" ErrCodeDEV01, s) else
  let currentDay := repository.GetCurrent s deviceID in
  if match currentDay with
     | Some d => bool_decide (FiscalDay.Status d = FiscalDayStatusOpened)
     | None => false
     end
  then (APIError 422 "Fiscal day is already opened" ErrCodeFISC01, s) else
  if match currentDay with
     | Some d => negb (bool_decide (FiscalDay.Status d = FiscalDayStatusClosed))
     | None => false
     end
  then (APIError 422 "Previous fiscal day is not closed" ErrCodeFISC02, s) else
  let nextDayNo := match currentDay with
                   | Some d => Go.add (FiscalDay.FiscalDayNo d) 1
                   | None => 1
                   end in
  let fiscalDay := FiscalDay.mk 0 deviceID nextDayNo (Env.now env) None
                     FiscalDayStatusOpened None None None None None in
  match repository.Create s fiscalDay with
  | None => (Failed "failed to create fiscal day", s)
  | Some s' =>
      (Returned (OpenFiscalDayResponse.mk (generateOperationID env) nextDayNo), s')
  end
  end.

Definition generateFiscalDayServerSignature (env : Env.t) (deviceID fiscalDayNo : Z)
    (fiscalDayDate : string) (fiscalDayUpdated : Go.Time)
    (reconciliationMode : FiscalDayReconciliationMode)
    (counters : list FiscalDayCounter.t) (deviceSignature : option SignatureData.t)
    : option SignatureDataEx.t :=
  let deviceSig := match deviceSignature with
                   | Some sd => Some (SignatureData.Signature sd)
                   | None => None
                   end in
  let hash := utils.GenerateFiscalDayServerHash sha256 deviceID fiscalDayNo fiscalDayDate
                (Go.FormatDateTime fiscalDayUpdated) reconciliationMode counters deviceSig in
  match Env.SignData env hash with
  | None => None
  | Some signature =>
      Some (SignatureDataEx.mk (SignatureData.mk hash signature)
              (Go.make_bytes 20))
  end.

(** The loop over [receiptsWithErrors] that sets [hasBlockingErrors]. *)
Definition hasBlockingErrors (receiptsWithErrors : list Receipt.t) : bool :=
  existsb (fun receipt =>
             bool_decide (Receipt.ValidationColor_ receipt = Some ValidationColorRed)
             || bool_decide (Receipt.ValidationColor_ receipt = Some ValidationColorGrey))
          receiptsWithErrors.

Definition CloseFiscalDay (env : Env.t) (req : CloseFiscalDayRequest.t) (s : Store.t)
    : Outcome CloseFiscalDayResponse.t * Store.t :=
  let deviceID := CloseFiscalDayRequest.DeviceID req in
  match repository.GetByDeviceID s deviceID with
  | None => (APIError 422 "Device not found" ErrCodeDEV01, s)
  | Some device =>
  if bool_decide (Device.OperatingMode device = DeviceOperatingModeOffline)
  then (APIError 422 "Device operating mode is Offline" ErrCodeDEV01, s) else
  match repository.GetCurrent s deviceID with
  | None => (APIError 422 "No fiscal day to close" ErrCodeFISC03, s)
  | Some fiscalDay =>
  if negb (bool_decide (FiscalDay.Status fiscalDay = FiscalDayStatusOpened))
     && negb (bool_decide (FiscalDay.Status fiscalDay = FiscalDayStatusCloseFailed))
  then (APIError 422 "Fiscal day cannot be closed" ErrCodeFISC03, s) else
  let receiptsWithErrors :=
    repository.GetReceiptsWithValidationErrors s (FiscalDay.ID fiscalDay) in
  if hasBlockingErrors receiptsWithErrors
  then (APIError 422 "Fiscal day has receipts with validation errors" ErrCodeFISC04, s) else
  let reconciliationMode :=
    if (0 <? length (CloseFiscalDayRequest.FiscalDayCounters req))%nat
    then FiscalDayReconciliationModeManual else FiscalDayReconciliationModeAuto in
  if bool_decide (reconciliationMode = FiscalDayReconciliationModeManual)
     && negb (ValidateCounters s (FiscalDay.ID fiscalDay)
                (CloseFiscalDayRequest.FiscalDayCounters req))
  then (APIError 422 "Submitted counters do not match actual values" ErrCodeFISC04, s) else
  let counters :=
    if bool_decide (reconciliationMode = FiscalDayReconciliationModeManual)
    then CloseFiscalDayRequest.FiscalDayCounters req
    else repository.GetCounters s (FiscalDay.ID fiscalDay) in
  let fiscalDayDate := Go.FormatDate (FiscalDay.FiscalDayOpened fiscalDay) in
  let _ := utils.GenerateFiscalDayHash sha256 deviceID (FiscalDay.FiscalDayNo fiscalDay)
             fiscalDayDate counters in
  if bool_decide (reconciliationMode = FiscalDayReconciliationModeAuto)
     && bool_decide (CloseFiscalDayRequest.FiscalDayDeviceSignature req = None)
  then (APIError 422 "Device signature required for auto reconciliation" ErrCodeFISC04, s) else
  let closedAt := Env.now env in
  match generateFiscalDayServerSignature env deviceID (FiscalDay.FiscalDayNo fiscalDay)
          fiscalDayDate closedAt reconciliationMode counters
          (CloseFiscalDayRequest.FiscalDayDeviceSignature req) with
  | None => (Failed "failed to generate server signature", s)
  | Some serverSignature =>
  let fiscalDay' :=
    FiscalDay.mk (FiscalDay.ID fiscalDay) (FiscalDay.DeviceID fiscalDay)
      (FiscalDay.FiscalDayNo fiscalDay) (FiscalDay.FiscalDayOpened fiscalDay)
      (Some closedAt) FiscalDayStatusClosed (Some reconciliationMode)
      (CloseFiscalDayRequest.FiscalDayDeviceSignature req) (Some serverSignature)
      (FiscalDay.ClosingErrorCode fiscalDay) (FiscalDay.LastReceiptGlobalNo fiscalDay) in
  let s1 := repository.Update s fiscalDay' in
  let s2 := repository.CreateCounters s1 (FiscalDay.ID fiscalDay) counters in
  (Returned (CloseFiscalDayResponse.mk (generateOperationID env) serverSignature counters
               (GetFiscalDayDocumentQuantities (Store.receipts s2) (FiscalDay.ID fiscalDay))),
   s2)
  end
  end
  end.

(** [GetFiscalDayStatus] reads the store only.  The method call
    [fiscalDay.ReconciliationMode.String()] has a value receiver and goes
    through the pointer [fiscalDay.ReconciliationMode]. *)
Definition GetFiscalDayStatus (env : Env.t) (deviceID : Z) (s : Store.t)
    : Outcome GetStatusResponse.t :=
  match repository.GetCurrent s deviceID with
  | None =>
      Returned (GetStatusResponse.mk (generateOperationID env)
                  (FiscalDayStatus_String FiscalDayStatusClosed)
                  None None None None None [] [])
  | Some fiscalDay =>
      match FiscalDay.ReconciliationMode fiscalDay with
      | None => Panicked
      | Some m =>
          let mode := FiscalDayReconciliationMode_String m in
          Returned (GetStatusResponse.mk (generateOperationID env)
                      (FiscalDayStatus_String (FiscalDay.Status fiscalDay))
                      (Some (FiscalDay.FiscalDayNo fiscalDay))
                      (Some mode)
                      (FiscalDay.FiscalDayServerSignature fiscalDay)
                      (FiscalDay.FiscalDayClosed fiscalDay)
                      (FiscalDay.LastReceiptGlobalNo fiscalDay)
                      [] [])
      end
  end.

(** *** ReceiptService *)

Definition generateServerSignature (env : Env.t) (receipt : Receipt.t)
    (serverDate : Go.Time) : option SignatureDataEx.t :=
  let signatureData :=
    EncodeBase64 (SignatureData.Signature (Receipt.ReceiptDeviceSignature receipt))
    +:+ Go.Itoa (Receipt.ReceiptID receipt)
    +:+ Go.FormatDateTime serverDate in
  match Env.SignData env signatureData with
  | None => None
  | Some signature =>
      Some (SignatureDataEx.mk
              (SignatureData.mk (utils.opt_string (Receipt.ReceiptHash receipt)) signature)
              (Go.make_bytes 20))
  end.

(** Lines 130 to 159 of [SubmitReceipt]: the credit/debit-note rules and
    the merge of their result. *)
Definition mergeCreditDebitValidation (s : Store.t) (receipt : Receipt.t)
    (validationResult : ValidationResult.t) : ValidationResult.t :=
  if bool_decide (Receipt.ReceiptType_ receipt = ReceiptTypeCreditNote)
     || bool_decide (Receipt.ReceiptType_ receipt = ReceiptTypeDebitNote)
  then
    match Receipt.CreditDebitNote_ receipt with
    | Some cdn =>
        match CreditDebitNote.ReceiptID cdn with
        | Some receiptID =>
            let originalReceipt := repository.GetByReceiptID s receiptID in
            let '(creditNotes, debitNotes) := repository.GetCreditDebitNotes s receiptID in
            let cdValidation :=
              ValidateCreditDebitNote receipt originalReceipt creditNotes debitNotes in
            ValidationResult.mk
              (ValidationResult.IsValid validationResult
               && ValidationResult.IsValid cdValidation)
              (match ValidationResult.Color cdValidation with
               | Some c =>
                   if bool_decide (ValidationResult.Color validationResult = None)
                      || bool_decide (c = ValidationColorRed)
                   then Some c
                   else ValidationResult.Color validationResult
               | None => ValidationResult.Color validationResult
               end)
              (ValidationResult.Errors validationResult
               ++ ValidationResult.Errors cdValidation)
        | None => validationResult
        end
    | None => validationResult
    end
  else validationResult.

Definition SubmitReceipt (env : Env.t) (req : SubmitReceiptRequest.t) (s : Store.t)
    : Outcome SubmitReceiptResponse.t * Store.t :=
  let deviceID := SubmitReceiptRequest.DeviceID req in
  match repository.GetByDeviceID s deviceID with
  | None => (APIError 422 "Device not found" ErrCodeDEV01, s)
  | Some device =>
  if bool_decide (Device.OperatingMode device = DeviceOperatingModeOffline)
  then (APIError 422 "Device operating mode is Offline" ErrCodeDEV01, s) else
  match repository.GetCurrent s deviceID with
  | None => (APIError 422 "No fiscal day opened" ErrCodeRCPT01, s)
  | Some fiscalDay =>
  if negb (bool_decide (FiscalDay.Status fiscalDay = FiscalDayStatusOpened))
     && negb (bool_decide (FiscalDay.Status fiscalDay = FiscalDayStatusCloseFailed))
  then (APIError 422 "Submitting receipt is not allowed" ErrCodeRCPT01, s) else
  let receipt := Receipt.set_FiscalDayID (FiscalDay.ID fiscalDay)
                   (SubmitReceiptRequest.Receipt_ req) in
  match repository.GetByGlobalNo s deviceID (Receipt.ReceiptGlobalNo receipt) with
  | Some existing =>
      match Receipt.ServerDate existing, Receipt.ReceiptServerSignature existing with
      | Some serverDate, Some serverSignature =>
          (Returned (SubmitReceiptResponse.mk (generateOperationID env)
                       (Receipt.ReceiptID existing) serverDate serverSignature), s)
      | _, _ => (Panicked, s)
      end
  | None =>
  let previousReceipt :=
    if 1 <? Receipt.ReceiptCounter receipt
    then repository.GetPreviousReceipt s deviceID (FiscalDay.ID fiscalDay)
           (Receipt.ReceiptGlobalNo receipt)
    else None in
  match repository.GetTaxpayer s (Device.TaxpayerID device) with
  | None => (Panicked, s)
  | Some taxpayer =>
  let applicableTaxes := repository.GetApplicableTaxes (Env.CURRENT_DATE env) s in
  let validationResult :=
    ValidateReceipt (Env.now env) receipt previousReceipt taxpayer applicableTaxes
      (FiscalDay.FiscalDayOpened fiscalDay) (Taxpayer.TaxPayerDayMaxHrs taxpayer) in
  let validationResult := mergeCreditDebitValidation s receipt validationResult in
  let previousHash := match previousReceipt with
                      | Some p => Receipt.ReceiptHash p
                      | None => None
                      end in
  let receiptHash := utils.GenerateReceiptHash sha256 receipt previousHash in
  let receipt := Receipt.set_ReceiptHash (Some receiptHash) receipt in
  let receipt := Receipt.set_Validation (ValidationResult.Color validationResult)
                   (ValidationResult.Errors validationResult) receipt in
  let serverDate := Env.now env in
  let receipt := Receipt.set_ServerDate (Some serverDate) receipt in
  match generateServerSignature env receipt serverDate with
  | None => (Failed "failed to generate server signature", s)
  | Some serverSignature =>
  let receipt := Receipt.set_ReceiptServerSignature (Some serverSignature) receipt in
  match repository.CreateWithLines s receipt with
  | None => (Failed "failed to save receipt", s)
  | Some (receipt, s1) =>
  let fiscalDay' :=
    FiscalDay.set_LastReceiptGlobalNo (Some (Receipt.ReceiptGlobalNo receipt)) fiscalDay in
  let s2 := repository.Update s1 fiscalDay' in
  (Returned (SubmitReceiptResponse.mk (generateOperationID env)
               (Receipt.ReceiptID receipt) serverDate serverSignature), s2)
  end
  end
  end
  end
  end
  end.

End Services.

End service.

(* ===================================================================== *)
(** ** Sample data for concrete runs                                      *)
(* ===================================================================== *)

Module sample.

(** Stand-ins for the collaborators; the digest keeps its input readable. *)
Definition sha256 (data : string) : string := "sha256(" +:+ data +:+ ")".
Definition EncodeBase64 (data : string) : string := data.
Definition laterRules (_ : Go.Time) (_ : Receipt.t) (_ : option Receipt.t) (_ : Taxpayer.t)
    (_ : list Tax.t) (_ : Go.Time) (_ : Z) (result : ValidationResult.t)
    : ValidationResult.t := result.
Definition ValidateCreditDebitNote (_ : Receipt.t) (_ : option Receipt.t)
    (_ _ : list Receipt.t) : ValidationResult.t := ValidationResult.mk true None [].
Definition GetFiscalDayDocumentQuantities (_ : list Receipt.t) (_ : Z)
    : list FiscalDayDocumentQuantity.t := [].

Definition env (uuid : string) (second : Z) : Env.t :=
  Env.mk (Go.mkTime 2024 1 1 10 0 second) uuid
    (fun data => Some ("signed(" +:+ data +:+ ")")) (Go.mkTime 2024 1 1 0 0 0).

Definition device : Device.t := Device.mk 1001 1 DeviceOperatingModeOnline.
Definition taxpayer : Taxpayer.t := Taxpayer.mk 1 (Some "123456789") 24.

(** A provisioned device and nothing else. *)
Definition store0 : Store.t := Store.mk [device] [taxpayer] [] [] 1 [] [] 1 1.

Definition tax_A (amount sales : float) : ReceiptTax.t :=
  ReceiptTax.mk (Some "A") (Some 15%float) 1 amount sales.

(** A fiscal invoice of device 1001 in USD, dated 2024-01-01T10:00:00. *)
Definition invoice (counter globalNo : Z) (total : float) (taxes : list ReceiptTax.t)
    : Receipt.t :=
  Receipt.mk 0 0 1001 0 ReceiptTypeFiscalInvoice "USD" counter globalNo "INV" None None
    (Go.mkTime 2024 1 1 10 0 0) None true [] taxes [] total
    (SignatureData.mk "" "devsig") None None None [] None.

(** The float64 values nearest to 1.235, 0.29 and 13.04. *)
Definition f_1_235 : float := 0x1.3c28f5c28f5c3p+0%float.
Definition f_0_29 : float := 0x1.28f5c28f5c28fp-2%float.
Definition f_13_04 : float := 0x1.a147ae147ae14p+3%float.

(** Counter rows: SaleByTax and BalanceByMoneyType are the positions 0
    and 6, Cash is the money type 0. *)
Definition saleByTax (value : float) : FiscalDayCounter.t :=
  FiscalDayCounter.mk (FiscalCounterType_iota FiscalCounterTypeSaleByTax) "USD"
    (Some 1) (Some 15%float) None value.
Definition balanceCash (value : float) : FiscalDayCounter.t :=
  FiscalDayCounter.mk (FiscalCounterType_iota FiscalCounterTypeBalanceByMoneyType) "USD"
    None None (Some (MoneyType_iota MoneyTypeCash)) value.

Definition saleTaxByTax (value : float) : FiscalDayCounter.t :=
  FiscalDayCounter.mk (FiscalCounterType_iota FiscalCounterTypeSaleTaxByTax) "USD"
    (Some 1) (Some 15%float) None value.

(** Device 1001 opens its first fiscal day. *)
Definition open_req : OpenFiscalDayRequest.t := OpenFiscalDayRequest.mk 1001.
Definition store1 : Store.t := snd (service.OpenFiscalDay (env "op-1" 0) open_req store0).

(** Its first receipt, 100.00 USD with 13.04 of tax A, and the same
    receipt with the total changed to 200.00. *)
Definition receipt1 : Receipt.t := invoice 1 1 100%float [tax_A f_13_04 100%float].
Definition receipt1_changed : Receipt.t := invoice 1 1 200%float [tax_A f_13_04 100%float].
Definition submit1 : SubmitReceiptRequest.t := SubmitReceiptRequest.mk 1001 receipt1.
Definition submit1_changed : SubmitReceiptRequest.t :=
  SubmitReceiptRequest.mk 1001 receipt1_changed.

Definition SubmitReceipt : Env.t -> SubmitReceiptRequest.t -> Store.t ->
    Outcome SubmitReceiptResponse.t * Store.t :=
  service.SubmitReceipt sha256 EncodeBase64 laterRules ValidateCreditDebitNote.

(** The store after the first receipt has been submitted. *)
Definition store2 : Store.t := snd (SubmitReceipt (env "op-2" 5) submit1 store1).

(** The hash and the server signature of the first receipt. *)
Definition hash1 : string :=
  "sha256(1001FISCALINVOICEUSD12024-01-01T10:00:0010000A15.00130410000)".
Definition signature1 : SignatureDataEx.t :=
  SignatureDataEx.mk (SignatureData.mk hash1 "signed(devsig02024-01-01T10:00:05)")
    (Go.make_bytes 20).

(** The store after the first receipt, with the server signature and the
    server date written to its row (the columns that
    [receiptRepository.Update] sets). *)
Definition store2_completed : Store.t :=
  Store.mk (Store.devices store2) (Store.taxpayers store2) (Store.taxes store2)
    (Store.fiscal_days store2) (Store.fiscal_days_id_seq store2)
    (Store.fiscal_counters store2)
    (map (fun r => Receipt.set_ServerDate (Some (Go.mkTime 2024 1 1 10 0 5))
                     (Receipt.set_ReceiptServerSignature (Some signature1) r))
         (Store.receipts store2))
    (Store.receipts_id_seq store2) (Store.receipts_receipt_id_seq store2).


(** What the aggregate queries yield for the day of the first receipt. *)
Definition calculateActualCounters (_ : list Receipt.t) (_ : Z) : list FiscalDayCounter.t :=
  [saleByTax 100%float; saleTaxByTax f_13_04].

Definition CloseFiscalDay : Env.t -> CloseFiscalDayRequest.t -> Store.t ->
    Outcome CloseFiscalDayResponse.t * Store.t :=
  service.CloseFiscalDay sha256 calculateActualCounters GetFiscalDayDocumentQuantities.

(** A close request whose counter set names the SaleByTax counter twice,
    first with 999.00 and then with the server's 100.00. *)
Definition close_twice : CloseFiscalDayRequest.t :=
  CloseFiscalDayRequest.mk 1001 None
    [saleByTax 999%float; saleByTax 100%float; saleTaxByTax f_13_04].


End sample.

(* ===================================================================== *)
(** ** Definitions for the statements                                     *)
(* ===================================================================== *)

(** The integer nearest to [total * 100] (ties to even), which is what
    the specification asks item 6 of the receipt encoding to be. *)
Definition nearest_cent (total : float) : Z :=
  match Prim2SF (Go.times100 total) with
  | S754_finite s m e =>
      let n := if 0 <=? e then Z.pos m * 2 ^ e
               else Go.round_half_even (Z.pos m) (2 ^ (- e)) in
      if s then - n else n
  | _ => 0
  end.

(** The counter tuple as the specification words it: counter-type name and
    money-type name, uppercased, where the code writes the integers. *)
Definition counter_bytes_by_name (ty : FiscalCounterType) (currency : string)
    (taxPercent : option float) (moneyType : option MoneyType) (value : float) : string :=
  Go.ToUpper (FiscalCounterType_String ty)
  +:+ Go.ToUpper currency
  +:+ (match taxPercent with
       | Some p => Go.Sprintf_2f p
       | None => match moneyType with
                 | Some m => Go.ToUpper (MoneyType_String m)
                 | None => ""
                 end
       end)
  +:+ Go.Itoa (Go.int64_of_float (Go.times100 value)).

(** [adds code color before after]: [after] is [before] with one more
    error of that code and colour. *)
Definition adds (code : string) (color : ValidationColor)
    (before after : ValidationResult.t) : Prop :=
  exists message, after = service.addError code message color before.


(** The row that [CreateWithLines] stores for the submitted receipt [r]:
    its columns as submitted, the fiscal day and the hash as set by
    [SubmitReceipt], the two identifiers from the sequences, and NULL in
    the four columns that the INSERT does not name. *)
Definition stored_row (id receiptID fiscalDayID : Z) (hash : string) (r : Receipt.t)
    : Receipt.t :=
  Receipt.mk id receiptID (Receipt.DeviceID r) fiscalDayID (Receipt.ReceiptType_ r)
    (Receipt.ReceiptCurrency r) (Receipt.ReceiptCounter r) (Receipt.ReceiptGlobalNo r)
    (Receipt.InvoiceNo r) (Receipt.BuyerData r) (Receipt.ReceiptNotes r)
    (Receipt.ReceiptDate r) (Receipt.CreditDebitNote_ r) (Receipt.ReceiptLinesTaxInclusive r)
    (Receipt.ReceiptLines r) (Receipt.ReceiptTaxes r) (Receipt.ReceiptPayments r)
    (Receipt.ReceiptTotal r) (Receipt.ReceiptDeviceSignature r) None (Some hash) None []
    None.

(** The receipt that the chain lookup of [SubmitReceipt] yields for [r]
    among the stored receipts [stored]: none for a receiptCounter of 1 or
    less. *)
Definition chain_lookup (stored : list Receipt.t) (deviceID : Z) (r : Receipt.t)
    : option Receipt.t :=
  if 1 <? Receipt.ReceiptCounter r
  then max_by Receipt.ReceiptGlobalNo
         (List.filter (fun q => (Receipt.DeviceID q =? deviceID)
                                && (Receipt.FiscalDayID q =? Receipt.FiscalDayID r)
                                && (Receipt.ReceiptGlobalNo q <? Receipt.ReceiptGlobalNo r))
                      stored)
  else None.

(** The bytes that follow the canonical encoding in the hash input. *)
Definition chain_bytes (previous : option Receipt.t) : string :=
  match previous with
  | Some p => utils.opt_string (Receipt.ReceiptHash p)
  | None => ""
  end.

(** The order of the tax tuples in the canonical encoding: by taxID, then
    by taxCode (a missing taxCode counting as the empty string). *)
Definition tax_le (a b : ReceiptTax.t) : Prop :=
  ReceiptTax.TaxID a < ReceiptTax.TaxID b
  \/ (ReceiptTax.TaxID a = ReceiptTax.TaxID b
      /\ String.leb (utils.opt_string (ReceiptTax.TaxCode a))
                    (utils.opt_string (ReceiptTax.TaxCode b)) = true).

(** [within_tolerance v w]: the test [diff > 0.01] of compareCounters
    fails for the submitted value [v] and the computed value [w], where
    [diff] is the float64 absolute difference of the two. *)
Definition within_tolerance (v w : float) : Prop :=
  let diff := PrimFloat.sub v w in
  let diff := if PrimFloat.ltb diff 0%float then PrimFloat.opp diff else diff in
  PrimFloat.ltb repository.tolerance diff = false.

(** A receipt row that blocks the closing of its fiscal day. *)
Definition blocking (r : Receipt.t) : Prop :=
  Receipt.ValidationColor_ r = Some ValidationColorRed
  \/ Receipt.ValidationColor_ r = Some ValidationColorGrey.

Definition has_blocking_receipt (s : Store.t) (fiscalDayID : Z) : Prop :=
  exists r, In r (Store.receipts s) /\ Receipt.FiscalDayID r = fiscalDayID /\ blocking r.


(** [candidate before deviceID r q]: [q] is one of the receipts [before]
    that [deviceID] stored in the fiscal day of [r] under a global number
    below that of [r]. *)
Definition candidate (before : list Receipt.t) (deviceID : Z) (r q : Receipt.t) : Prop :=
  In q before
  /\ Receipt.DeviceID q = deviceID
  /\ Receipt.FiscalDayID q = Receipt.FiscalDayID r
  /\ Receipt.ReceiptGlobalNo q < Receipt.ReceiptGlobalNo r.

(** [predecessor before deviceID r p]: [p] is the candidate with the
    greatest global number: receipt N-1 when the numbering has no gap. *)
Definition predecessor (before : list Receipt.t) (deviceID : Z) (r p : Receipt.t) : Prop :=
  candidate before deviceID r p
  /\ forall q, candidate before deviceID r q ->
               Receipt.ReceiptGlobalNo q <= Receipt.ReceiptGlobalNo p.

Section Properties.

Variable sha256 : string -> string.
Variable EncodeBase64 : string -> string.
Variable laterRules :
  Go.Time -> Receipt.t -> option Receipt.t -> Taxpayer.t -> list Tax.t -> Go.Time -> Z ->
  ValidationResult.t -> ValidationResult.t.
Variable ValidateCreditDebitNote :
  Receipt.t -> option Receipt.t -> list Receipt.t -> list Receipt.t -> ValidationResult.t.
Variable calculateActualCounters : list Receipt.t -> Z -> list FiscalDayCounter.t.
Variable GetFiscalDayDocumentQuantities : list Receipt.t -> Z -> list FiscalDayDocumentQuantity.t.

Local Abbreviation OpenFiscalDay := service.OpenFiscalDay.
Local Abbreviation CloseFiscalDay :=
  (service.CloseFiscalDay sha256 calculateActualCounters GetFiscalDayDocumentQuantities).
Local Abbreviation SubmitReceipt :=
  (service.SubmitReceipt sha256 EncodeBase64 laterRules ValidateCreditDebitNote).
Local Abbreviation ValidateCounters := (service.ValidateCounters calculateActualCounters).

(** The stores that the three state-changing operations produce from a
    provisioned system without fiscal days and receipts. *)
Inductive reachable : Store.t -> Prop :=
| reachable_init devices taxpayers taxes :
    reachable (Store.mk devices taxpayers taxes [] 1 [] [] 1 1)
| reachable_OpenFiscalDay env req s :
    reachable s -> reachable (snd (OpenFiscalDay env req s))
| reachable_CloseFiscalDay env req s :
    reachable s -> reachable (snd (CloseFiscalDay env req s))
| reachable_SubmitReceipt env req s :
    reachable s -> reachable (snd (SubmitReceipt env req s)).

(** What the schema and the services maintain about [fiscal_days]. *)
Definition days_wf (s : Store.t) : Prop :=
  List.NoDup (map FiscalDay.ID (Store.fiscal_days s))
  /\ (forall d, In d (Store.fiscal_days s) -> FiscalDay.ID d < Store.fiscal_days_id_seq s)
  /\ (forall d, In d (Store.fiscal_days s) -> int4 (FiscalDay.FiscalDayNo d) = true)
  /\ (forall d, In d (Store.fiscal_days s) ->
        FiscalDay.Status d <> FiscalDayStatusClosed ->
        repository.GetCurrent s (FiscalDay.DeviceID d) = Some d).






(** What [CreateWithLines] leaves NULL stays NULL: no operation writes
    these columns afterwards. *)
Definition rows_unset (s : Store.t) : Prop :=
  forall r, In r (Store.receipts s) ->
    Receipt.ServerDate r = None
    /\ Receipt.ReceiptServerSignature r = None
    /\ Receipt.ValidationColor_ r = None.

(** A day that has not been closed has no reconciliation mode. *)
Definition open_days_without_mode (s : Store.t) : Prop :=
  forall d, In d (Store.fiscal_days s) ->
    FiscalDay.Status d <> FiscalDayStatusClosed ->
    FiscalDay.ReconciliationMode d = None.


(* ===================================================================== *)
(** ** Lemmas on the query operators                                      *)
(* ===================================================================== *)

Lemma max_by_In {A} (key : A -> Z) (l : list A) (m : A) :
  max_by key l = Some m -> In m l.
Proof.
  revert m. induction l as [|x r IH]; intros m H; cbn in H; [discriminate|].
  destruct (max_by key r) as [y|].
  - destruct (key y <? key x); inversion H; subst; [now left|right; now apply IH].
  - inversion H; now left.
Qed.

Lemma max_by_max {A} (key : A -> Z) (l : list A) (m : A) :
  max_by key l = Some m -> forall x, In x l -> key x <= key m.
Proof.
  revert m. induction l as [|x r IH]; intros m H z Hz; [destruct Hz|].
  cbn in H. destruct (max_by key r) as [y|] eqn:E.
  - destruct (Z.ltb_spec (key y) (key x)); inversion H; subst; destruct Hz as [->|Hz];
      try lia; specialize (IH _ eq_refl _ Hz); lia.
  - inversion H; subst. destruct Hz as [->|Hz]; [lia|].
    destruct r; [destruct Hz|]. cbn in E. destruct (max_by key r); [destruct (_ <? _)|]; discriminate.
Qed.

Lemma max_by_None {A} (key : A -> Z) (l : list A) : max_by key l = None -> l = [].
Proof.
  destruct l as [|x r]; [reflexivity|]. cbn.
  destruct (max_by key r); [destruct (_ <? _)|]; discriminate.
Qed.

Lemma max_by_map {A} (key : A -> Z) (f : A -> A) (l : list A) :
  (forall x, key (f x) = key x) ->
  max_by key (map f l) = option_map f (max_by key l).
Proof.
  intros Hf. induction l as [|x r IH]; [reflexivity|].
  cbn. rewrite IH. destruct (max_by key r) as [y|]; cbn; [|reflexivity].
  rewrite !Hf. destruct (key y <? key x); reflexivity.
Qed.

Lemma max_by_snoc {A} (key : A -> Z) (l : list A) (x : A) :
  (forall y, In y l -> key y < key x) -> max_by key (l ++ [x]) = Some x.
Proof.
  induction l as [|y r IH]; intros H; [reflexivity|].
  cbn. rewrite IH by (intros z Hz; apply H; now right).
  destruct (Z.ltb_spec (key x) (key y)); [|reflexivity].
  specialize (H y (or_introl eq_refl)). lia.
Qed.

Lemma filter_map_pres {A} (p : A -> bool) (f : A -> A) (l : list A) :
  (forall x, p (f x) = p x) -> List.filter p (map f l) = map f (List.filter p l).
Proof.
  intros Hf. induction l as [|x r IH]; [reflexivity|].
  cbn. rewrite Hf, IH. destruct (p x); reflexivity.
Qed.




Lemma NoDup_map_inj_on {A B} (f : A -> B) (l : list A) (x y : A) :
  List.NoDup (map f l) -> In x l -> In y l -> f x = f y -> x = y.
Proof.
  induction l as [|a r IH]; intros Hnd Hx Hy E; [destruct Hx|].
  cbn in Hnd. inversion Hnd as [|? ? Ha Hr]; subst.
  destruct Hx as [Hx|Hx], Hy as [Hy|Hy]; subst.
  - reflexivity.
  - exfalso. apply Ha. rewrite E. now apply in_map.
  - exfalso. apply Ha. rewrite <- E. now apply in_map.
  - now apply IH.
Qed.



Lemma NoDup_snoc {A} (l : list A) (x : A) :
  List.NoDup l -> ~ In x l -> List.NoDup (l ++ [x]).
Proof.
  induction 1 as [|y r Hy Hr IH]; intros Hx; cbn.
  - constructor; [intros []|constructor].
  - constructor.
    + intros Hin. apply in_app_or in Hin as [Hin|[->|[]]]; [contradiction|].
      apply Hx. now left.
    + apply IH. intros Hin. apply Hx. now right.
Qed.

Lemma wrap64_small (z : Z) : - 2 ^ 63 <= z < 2 ^ 63 -> Go.wrap64 z = z.
Proof.
  intros H. unfold Go.wrap64.
  rewrite Z.mod_small; lia.
Qed.

Lemma add_1_int4 (z : Z) : int4 z = true -> Go.add z 1 = z + 1.
Proof.
  unfold int4, Go.add. intros H.
  apply andb_prop in H as [H1 H2].
  apply Z.leb_le in H1. apply Z.ltb_lt in H2.
  apply wrap64_small. lia.
Qed.




(* ===================================================================== *)
(** ** CloseFiscalDay: the closing guard                                  *)
(* ===================================================================== *)





(* ===================================================================== *)
(** ** The fiscal-day table under the three operations                    *)
(* ===================================================================== *)

Lemma update_row_ID (fd row : FiscalDay.t) :
  FiscalDay.ID (repository.update_row fd row) = FiscalDay.ID row.
Proof. unfold repository.update_row. destruct (_ =? _); reflexivity. Qed.

Lemma update_row_DeviceID (fd row : FiscalDay.t) :
  FiscalDay.DeviceID (repository.update_row fd row) = FiscalDay.DeviceID row.
Proof. unfold repository.update_row. destruct (_ =? _); reflexivity. Qed.

Lemma update_row_FiscalDayNo (fd row : FiscalDay.t) :
  FiscalDay.FiscalDayNo (repository.update_row fd row) = FiscalDay.FiscalDayNo row.
Proof. unfold repository.update_row. destruct (_ =? _); reflexivity. Qed.

Lemma update_row_other (fd row : FiscalDay.t) :
  FiscalDay.ID row <> FiscalDay.ID fd -> repository.update_row fd row = row.
Proof.
  intros H. unfold repository.update_row.
  destruct (Z.eqb_spec (FiscalDay.ID row) (FiscalDay.ID fd)); [contradiction|reflexivity].
Qed.

Lemma update_row_Status (fd row : FiscalDay.t) :
  FiscalDay.ID row = FiscalDay.ID fd ->
  FiscalDay.Status (repository.update_row fd row) = FiscalDay.Status fd.
Proof.
  intros H. unfold repository.update_row. rewrite H, Z.eqb_refl. reflexivity.
Qed.

Lemma GetCurrent_In (s : Store.t) (deviceID : Z) (d : FiscalDay.t) :
  repository.GetCurrent s deviceID = Some d ->
  In d (Store.fiscal_days s) /\ FiscalDay.DeviceID d = deviceID.
Proof.
  intros H. apply max_by_In, filter_In in H as [H1 H2].
  split; [exact H1|now apply Z.eqb_eq].
Qed.

(** [GetCurrent] yields the day of the device with the greatest number. *)
Lemma GetCurrent_latest (s : Store.t) (deviceID : Z) (last d : FiscalDay.t) :
  repository.GetCurrent s deviceID = Some last ->
  In d (Store.fiscal_days s) -> FiscalDay.DeviceID d = deviceID ->
  FiscalDay.FiscalDayNo d <= FiscalDay.FiscalDayNo last.
Proof.
  intros H Hin Hdev. apply (max_by_max _ _ _ H).
  apply filter_In. split; [exact Hin|now apply Z.eqb_eq].
Qed.

Lemma GetCurrent_None (s : Store.t) (deviceID : Z) :
  repository.GetCurrent s deviceID = None <->
  forall d, In d (Store.fiscal_days s) -> FiscalDay.DeviceID d <> deviceID.
Proof.
  split.
  - intros H d Hin Hdev. apply max_by_None in H.
    assert (Hd : In d (List.filter (fun d => FiscalDay.DeviceID d =? deviceID)
                         (Store.fiscal_days s))).
    { apply filter_In. split; [exact Hin|now apply Z.eqb_eq]. }
    rewrite H in Hd. destruct Hd.
  - intros H. destruct (repository.GetCurrent s deviceID) as [d|] eqn:E; [|reflexivity].
    apply GetCurrent_In in E as [Hin Hdev]. exfalso. exact (H d Hin Hdev).
Qed.

Lemma GetCurrent_ext (s s' : Store.t) (deviceID : Z) :
  Store.fiscal_days s' = Store.fiscal_days s ->
  repository.GetCurrent s' deviceID = repository.GetCurrent s deviceID.
Proof. intros H. unfold repository.GetCurrent. rewrite H. reflexivity. Qed.

Lemma GetCurrent_Update (s : Store.t) (fd : FiscalDay.t) (deviceID : Z) :
  repository.GetCurrent (repository.Update s fd) deviceID
  = option_map (repository.update_row fd) (repository.GetCurrent s deviceID).
Proof.
  unfold repository.GetCurrent, repository.Update. cbn.
  rewrite filter_map_pres by (intros x; now rewrite update_row_DeviceID).
  apply max_by_map. intros x. apply update_row_FiscalDayNo.
Qed.

Lemma days_wf_ext (s s' : Store.t) :
  Store.fiscal_days s' = Store.fiscal_days s ->
  Store.fiscal_days_id_seq s' = Store.fiscal_days_id_seq s ->
  days_wf s -> days_wf s'.
Proof.
  intros Hd Hq (H1 & H2 & H3 & H4). unfold days_wf. rewrite Hd, Hq.
  repeat split; try assumption.
  intros d Hin Hst. rewrite (GetCurrent_ext s s') by exact Hd. now apply H4.
Qed.

Lemma fiscal_days_Update (s : Store.t) (fd : FiscalDay.t) :
  Store.fiscal_days (repository.Update s fd)
  = map (repository.update_row fd) (Store.fiscal_days s).
Proof. reflexivity. Qed.

Lemma days_wf_Update (s : Store.t) (fd : FiscalDay.t) :
  days_wf s ->
  (forall d, In d (Store.fiscal_days s) -> FiscalDay.ID d = FiscalDay.ID fd ->
             FiscalDay.Status fd <> FiscalDayStatusClosed ->
             FiscalDay.Status d <> FiscalDayStatusClosed) ->
  days_wf (repository.Update s fd).
Proof.
  intros (H1 & H2 & H3 & H4) Hst. unfold days_wf. rewrite fiscal_days_Update.
  split; [|split; [|split]].
  - rewrite map_map. erewrite map_ext; [exact H1|]. intros d. apply update_row_ID.
  - intros d' Hin. apply in_map_iff in Hin as (d & <- & Hin).
    rewrite update_row_ID. now apply H2.
  - intros d' Hin. apply in_map_iff in Hin as (d & <- & Hin).
    rewrite update_row_FiscalDayNo. now apply H3.
  - intros d' Hin Hopen. apply in_map_iff in Hin as (d & <- & Hin).
    rewrite GetCurrent_Update, update_row_DeviceID.
    rewrite (H4 d Hin); [reflexivity|].
    destruct (Z.eq_dec (FiscalDay.ID d) (FiscalDay.ID fd)) as [E|E].
    + apply (Hst d Hin E). now rewrite (update_row_Status fd d E) in Hopen.
    + now rewrite (update_row_other fd d E) in Hopen.
Qed.

Lemma days_wf_Create (s s' : Store.t) (fd : FiscalDay.t) :
  days_wf s ->
  repository.Create s fd = Some s' ->
  (forall d, In d (Store.fiscal_days s) -> FiscalDay.DeviceID d = FiscalDay.DeviceID fd ->
             FiscalDay.Status d = FiscalDayStatusClosed
             /\ FiscalDay.FiscalDayNo d < FiscalDay.FiscalDayNo fd) ->
  days_wf s'
  /\ Store.fiscal_days s'
     = (Store.fiscal_days s
        ++ [FiscalDay.mk (Store.fiscal_days_id_seq s) (FiscalDay.DeviceID fd)
              (FiscalDay.FiscalDayNo fd) (FiscalDay.FiscalDayOpened fd) None
              (FiscalDay.Status fd) None None None None None])%list.
Proof.
  intros (H1 & H2 & H3 & H4) Hcreate Hold.
  unfold repository.Create in Hcreate.
  destruct (_ || _) eqn:Echeck; [discriminate|].
  apply orb_false_elim in Echeck as [Echeck Eint].
  apply negb_false_iff in Eint.
  inversion Hcreate; subst s'; clear Hcreate. cbn.
  split; [|reflexivity].
  set (row := FiscalDay.mk _ _ _ _ _ _ _ _ _ _ _).
  unfold days_wf. cbn.
  repeat split.
  - rewrite map_app. cbn. apply NoDup_snoc; [exact H1|].
    intros Hx. apply in_map_iff in Hx as (d & Hd & Hin). specialize (H2 d Hin). lia.
  - intros d Hin. apply in_app_or in Hin as [Hin|[<-|[]]]; [specialize (H2 d Hin); lia|cbn; lia].
  - intros d Hin. apply in_app_or in Hin as [Hin|[<-|[]]]; [now apply H3|exact Eint].
  - intros d Hin Hopen. unfold repository.GetCurrent. cbn.
    rewrite List.filter_app. cbn.
    apply in_app_or in Hin as [Hin|[<-|[]]].
    + assert (Hne : FiscalDay.DeviceID d <> FiscalDay.DeviceID fd).
      { intros E. destruct (Hold d Hin E) as [Hc _]. contradiction. }
      destruct (Z.eqb_spec (FiscalDay.DeviceID fd) (FiscalDay.DeviceID d)) as [E|_];
        [congruence|].
      rewrite app_nil_r. now apply H4.
    + cbn. rewrite Z.eqb_refl. apply max_by_snoc.
      intros y Hy. apply filter_In in Hy as [Hy Hdev]. apply Z.eqb_eq in Hdev.
      cbn. now apply Hold.
Qed.

(** What a successful [OpenFiscalDay] went through. *)
Lemma OpenFiscalDay_Returned (env : Env.t) (req : OpenFiscalDayRequest.t) (s s' : Store.t)
    (resp : OpenFiscalDayResponse.t) :
  OpenFiscalDay env req s = (Returned resp, s') ->
  let deviceID := OpenFiscalDayRequest.DeviceID req in
  let nextDayNo := match repository.GetCurrent s deviceID with
                   | Some d => Go.add (FiscalDay.FiscalDayNo d) 1
                   | None => 1
                   end in
  (exists device, repository.GetByDeviceID s deviceID = Some device
                  /\ Device.OperatingMode device = DeviceOperatingModeOnline)
  /\ (forall d, repository.GetCurrent s deviceID = Some d ->
                FiscalDay.Status d = FiscalDayStatusClosed)
  /\ repository.Create s (FiscalDay.mk 0 deviceID nextDayNo (Env.now env) None
                            FiscalDayStatusOpened None None None None None) = Some s'
  /\ resp = OpenFiscalDayResponse.mk (Env.uuid env) nextDayNo.
Proof.
  intros H. cbv zeta. unfold service.OpenFiscalDay in H.
  set (deviceID := OpenFiscalDayRequest.DeviceID req) in *.
  destruct (repository.GetByDeviceID s deviceID) as [device|]; [|discriminate].
  destruct (Device.OperatingMode device) eqn:Emode; [|discriminate].
  cbn [bool_decide decide_rel] in H.
  assert (Hclosed : forall d, repository.GetCurrent s deviceID = Some d ->
                              FiscalDay.Status d = FiscalDayStatusClosed).
  { intros d Hd. rewrite Hd in H. destruct (FiscalDay.Status d); try discriminate.
    reflexivity. }
  destruct (repository.GetCurrent s deviceID) as [d|] eqn:Ecur.
  - rewrite (Hclosed d eq_refl) in H. cbn in H.
    destruct (repository.Create _ _) as [s1|] eqn:Ecreate; [|discriminate].
    inversion H; subst. repeat split; eauto.
  - cbn in H.
    destruct (repository.Create _ _) as [s1|] eqn:Ecreate; [|discriminate].
    inversion H; subst. repeat split; eauto.
Qed.

Lemma OpenFiscalDay_store (env : Env.t) (req : OpenFiscalDayRequest.t) (s : Store.t) :
  snd (OpenFiscalDay env req s) = s
  \/ exists resp, OpenFiscalDay env req s = (Returned resp, snd (OpenFiscalDay env req s)).
Proof.
  unfold service.OpenFiscalDay.
  repeat match goal with
         | |- context [match ?x with _ => _ end] => destruct x
         end; cbn; eauto.
Qed.

(** The day that [OpenFiscalDay] is about to number exceeds the days of
    the device, which are all Closed. *)
Lemma open_day_is_latest (s : Store.t) (deviceID : Z) :
  days_wf s ->
  (forall d, repository.GetCurrent s deviceID = Some d ->
             FiscalDay.Status d = FiscalDayStatusClosed) ->
  let nextDayNo := match repository.GetCurrent s deviceID with
                   | Some d => Go.add (FiscalDay.FiscalDayNo d) 1
                   | None => 1
                   end in
  nextDayNo = match repository.GetCurrent s deviceID with
              | Some d => FiscalDay.FiscalDayNo d + 1
              | None => 1
              end
  /\ forall d, In d (Store.fiscal_days s) -> FiscalDay.DeviceID d = deviceID ->
               FiscalDay.Status d = FiscalDayStatusClosed
               /\ FiscalDay.FiscalDayNo d < nextDayNo.
Proof.
  intros (H1 & H2 & H3 & H4) Hclosed nextDayNo. subst nextDayNo.
  destruct (repository.GetCurrent s deviceID) as [last|] eqn:Ecur.
  - pose proof (GetCurrent_In _ _ _ Ecur) as [Hin Hdev].
    rewrite (add_1_int4 _ (H3 _ Hin)). split; [reflexivity|].
    intros d Hd Hdd. split.
    + destruct (FiscalDay.Status d) eqn:Est; try reflexivity;
        (assert (Hopen : FiscalDay.Status d <> FiscalDayStatusClosed) by (rewrite Est; discriminate);
         specialize (H4 d Hd Hopen); rewrite Hdd, Ecur in H4; inversion H4; subst;
         rewrite (Hclosed _ eq_refl) in Est; discriminate).
    + pose proof (GetCurrent_latest _ _ _ _ Ecur Hd Hdd). lia.
  - split; [reflexivity|]. intros d Hd Hdd.
    exfalso. exact (proj1 (GetCurrent_None s deviceID) Ecur d Hd Hdd).
Qed.

Lemma days_wf_OpenFiscalDay (env : Env.t) (req : OpenFiscalDayRequest.t) (s : Store.t) :
  days_wf s -> days_wf (snd (OpenFiscalDay env req s)).
Proof.
  intros Hwf. destruct (OpenFiscalDay_store env req s) as [-> | [resp Hrun]]; [exact Hwf|].
  apply OpenFiscalDay_Returned in Hrun as (_ & Hclosed & Hcreate & _).
  destruct (open_day_is_latest s _ Hwf Hclosed) as [_ Hold].
  exact (proj1 (days_wf_Create _ _ _ Hwf Hcreate Hold)).
Qed.

Lemma CloseFiscalDay_store (env : Env.t) (req : CloseFiscalDayRequest.t) (s : Store.t) :
  snd (CloseFiscalDay env req s) = s
  \/ exists fiscalDay fd' counters,
       repository.GetCurrent s (CloseFiscalDayRequest.DeviceID req) = Some fiscalDay
       /\ FiscalDay.ID fd' = FiscalDay.ID fiscalDay
       /\ FiscalDay.Status fd' = FiscalDayStatusClosed
       /\ snd (CloseFiscalDay env req s)
          = repository.CreateCounters (repository.Update s fd') (FiscalDay.ID fiscalDay)
              counters.
Proof.
  unfold service.CloseFiscalDay.
  destruct (repository.GetByDeviceID _ _); [|now left].
  destruct (bool_decide (Device.OperatingMode _ = _)); [now left|].
  destruct (repository.GetCurrent _ _) as [fiscalDay|] eqn:Ecur; [|now left].
  destruct (negb _ && negb _); [now left|].
  destruct (service.hasBlockingErrors _); [now left|].
  destruct (bool_decide _ && negb _); [now left|].
  destruct (bool_decide _ && bool_decide _); [now left|].
  destruct (service.generateFiscalDayServerSignature _ _ _ _ _ _ _ _ _); [|now left].
  right. eexists _, _, _. split; [reflexivity|].
  split; [|split]; [| |reflexivity]; reflexivity.
Qed.

Lemma days_wf_CloseFiscalDay (env : Env.t) (req : CloseFiscalDayRequest.t) (s : Store.t) :
  days_wf s -> days_wf (snd (CloseFiscalDay env req s)).
Proof.
  intros Hwf.
  destruct (CloseFiscalDay_store env req s) as [-> | (fiscalDay & fd' & counters & _ & _ & Hst & ->)];
    [exact Hwf|].
  apply (days_wf_ext (repository.Update s fd')); [reflexivity|reflexivity|].
  apply days_wf_Update; [exact Hwf|].
  intros d _ _ Hopen. contradiction.
Qed.

(** The two ways in which [SubmitReceipt] ends: without touching the
    store, and then a response repeats the row found under the request's
    device and global number; or with one more receipt row, whose hash is
    the digest of the canonical encoding followed by the hash of the row
    that the chain lookup yields, and with the cursor of the current day
    moved. *)
Lemma SubmitReceipt_cases (env : Env.t) (req : SubmitReceiptRequest.t) (s : Store.t) :
  let deviceID := SubmitReceiptRequest.DeviceID req in
  let r := SubmitReceiptRequest.Receipt_ req in
  let run := SubmitReceipt env req s in
  (snd run = s
   /\ forall resp, fst run = Returned resp ->
        exists existing serverDate serverSignature,
          repository.GetByGlobalNo s deviceID (Receipt.ReceiptGlobalNo r) = Some existing
          /\ Receipt.ServerDate existing = Some serverDate
          /\ Receipt.ReceiptServerSignature existing = Some serverSignature
          /\ resp = SubmitReceiptResponse.mk (Env.uuid env) (Receipt.ReceiptID existing)
                      serverDate serverSignature)
  \/ (exists fiscalDay serverSignature,
        repository.GetCurrent s deviceID = Some fiscalDay
        /\ repository.GetByGlobalNo s deviceID (Receipt.ReceiptGlobalNo r) = None
        /\ existsb (fun q => (Receipt.DeviceID q =? Receipt.DeviceID r)
                             && (Receipt.ReceiptGlobalNo q =? Receipt.ReceiptGlobalNo r))
                   (Store.receipts s) = false
        /\ existsb (fun d => FiscalDay.ID d =? FiscalDay.ID fiscalDay)
                   (Store.fiscal_days s) = true
        /\ let r' := Receipt.set_FiscalDayID (FiscalDay.ID fiscalDay) r in
           let row := stored_row (Store.receipts_id_seq s) (Store.receipts_receipt_id_seq s)
                        (FiscalDay.ID fiscalDay)
                        (sha256 (utils.receipt_canonical r'
                                 +:+ chain_bytes (chain_lookup (Store.receipts s) deviceID r')))
                        r in
           run = (Returned (SubmitReceiptResponse.mk (Env.uuid env)
                              (Store.receipts_receipt_id_seq s) (Env.now env) serverSignature),
                  repository.Update
                    (Store.mk (Store.devices s) (Store.taxpayers s) (Store.taxes s)
                       (Store.fiscal_days s) (Store.fiscal_days_id_seq s)
                       (Store.fiscal_counters s) (Store.receipts s ++ [row])
                       (Store.receipts_id_seq s + 1) (Store.receipts_receipt_id_seq s + 1))
                    (FiscalDay.set_LastReceiptGlobalNo (Some (Receipt.ReceiptGlobalNo r))
                       fiscalDay))).
Proof.
  cbv zeta.
  assert (Hhash : forall fid,
    let r' := Receipt.set_FiscalDayID fid (SubmitReceiptRequest.Receipt_ req) in
    utils.GenerateReceiptHash sha256 r'
      (match (if 1 <? Receipt.ReceiptCounter r'
              then repository.GetPreviousReceipt s (SubmitReceiptRequest.DeviceID req) fid
                     (Receipt.ReceiptGlobalNo r')
              else None) with
       | Some p => Receipt.ReceiptHash p
       | None => None
       end)
    = sha256 (utils.receipt_canonical r'
              +:+ chain_bytes (chain_lookup (Store.receipts s)
                                 (SubmitReceiptRequest.DeviceID req) r'))).
  { intros fid r'. unfold utils.GenerateReceiptHash, utils.receipt_hash_data, chain_lookup,
      chain_bytes, repository.GetPreviousReceipt.
    destruct (1 <? Receipt.ReceiptCounter r'); [|reflexivity].
    subst r'. cbn [Receipt.FiscalDayID Receipt.set_FiscalDayID].
    destruct (max_by _ _); reflexivity. }
  cbv zeta in Hhash.
  unfold service.SubmitReceipt.
  destruct (repository.GetByDeviceID _ _) as [device|]; [|left; split; [reflexivity|discriminate]].
  destruct (bool_decide (Device.OperatingMode _ = _));
    [left; split; [reflexivity|discriminate]|].
  destruct (repository.GetCurrent _ _) as [fiscalDay|] eqn:Ecur;
    [|left; split; [reflexivity|discriminate]].
  destruct (negb _ && negb _); [left; split; [reflexivity|discriminate]|].
  change (Receipt.ReceiptGlobalNo (Receipt.set_FiscalDayID _ ?x)) with (Receipt.ReceiptGlobalNo x).
  destruct (repository.GetByGlobalNo _ _ _) as [existing|] eqn:Edup.
  { left. split.
    - destruct (Receipt.ServerDate existing), (Receipt.ReceiptServerSignature existing);
        reflexivity.
    - intros resp Hresp.
      destruct (Receipt.ServerDate existing) as [serverDate|] eqn:Edate;
        [|discriminate].
      destruct (Receipt.ReceiptServerSignature existing) as [serverSignature|] eqn:Esig;
        [|discriminate].
      cbn in Hresp. inversion Hresp. exists existing, serverDate, serverSignature.
      split; [reflexivity|split; [exact Edate|split; [exact Esig|reflexivity]]]. }
  destruct (repository.GetTaxpayer _ _) as [taxpayer|];
    [|left; split; [reflexivity|discriminate]].
  destruct (service.generateServerSignature _ _ _ _) as [serverSignature|];
    [|left; split; [reflexivity|discriminate]].
  unfold repository.CreateWithLines.
  destruct (_ || _) eqn:Echeck; [left; split; [reflexivity|discriminate]|].
  right.
  apply orb_false_elim in Echeck as [Echeck _].
  apply orb_false_elim in Echeck as [Echeck _].
  apply orb_false_elim in Echeck as [Echeck Efk].
  apply orb_false_elim in Echeck as [Euniq _].
  apply negb_false_iff in Efk.
  exists fiscalDay, serverSignature.
  split; [reflexivity|]. split; [reflexivity|]. split; [exact Euniq|].
  split; [exact Efk|].
  rewrite <- Hhash. reflexivity.
Qed.

Lemma days_wf_SubmitReceipt (env : Env.t) (req : SubmitReceiptRequest.t) (s : Store.t) :
  days_wf s -> days_wf (snd (SubmitReceipt env req s)).
Proof.
  intros Hwf.
  destruct (SubmitReceipt_cases env req s)
    as [[-> _] | (fiscalDay & sig & Hcur & _ & _ & _ & Hrun)];
    [exact Hwf|].
  cbv zeta in Hrun. rewrite Hrun. cbn [snd].
  apply days_wf_Update.
  - revert Hwf. apply days_wf_ext; reflexivity.
  - cbn. intros d Hin E Hopen.
    apply GetCurrent_In in Hcur as [Hcur _].
    destruct Hwf as (Hnd & _).
    assert (d = fiscalDay).
    { apply (NoDup_map_inj_on FiscalDay.ID (Store.fiscal_days s)); assumption. }
    subst d. exact Hopen.
Qed.

Lemma reachable_days_wf (s : Store.t) : reachable s -> days_wf s.
Proof.
  induction 1 as [devices taxpayers taxes | env req s _ IH | env req s _ IH | env req s _ IH].
  - unfold days_wf. cbn. repeat split; try (intros d []). constructor.
  - now apply days_wf_OpenFiscalDay.
  - now apply days_wf_CloseFiscalDay.
  - now apply days_wf_SubmitReceipt.
Qed.



(* ===================================================================== *)
(** ** The receipt hash chain                                             *)
(* ===================================================================== *)




(** When the receipt numbered N-1 is among the candidates, it is the
    global number of the predecessor. *)
Lemma predecessor_N_minus_1 (before : list Receipt.t) (deviceID : Z) (r p q : Receipt.t) :
  predecessor before deviceID r p ->
  candidate before deviceID r q ->
  Receipt.ReceiptGlobalNo q = Receipt.ReceiptGlobalNo r - 1 ->
  Receipt.ReceiptGlobalNo p = Receipt.ReceiptGlobalNo r - 1.
Proof.
  intros [(_ & _ & _ & Hlt) Hmax] Hq E. specialize (Hmax q Hq). lia.
Qed.



Lemma Create_shape (s s' : Store.t) (fd : FiscalDay.t) :
  repository.Create s fd = Some s' ->
  Store.receipts s' = Store.receipts s
  /\ exists row, Store.fiscal_days s' = (Store.fiscal_days s ++ [row])%list.
Proof.
  unfold repository.Create. destruct (_ || _); [discriminate|].
  intros H. inversion H. cbn. eauto.
Qed.






(* ===================================================================== *)
(** ** Duplicate submissions                                              *)
(* ===================================================================== *)


Lemma find_In {A} (p : A -> bool) (l : list A) (x : A) :
  find p l = Some x -> In x l /\ p x = true.
Proof. apply find_some. Qed.






(* ===================================================================== *)
(** ** Columns that the operations never fill                             *)
(* ===================================================================== *)

Lemma reachable_rows_unset (s : Store.t) : reachable s -> rows_unset s.
Proof.
  induction 1 as [devices taxpayers taxes | env req s _ IH | env req s _ IH | env req s _ IH].
  - intros r [].
  - destruct (OpenFiscalDay_store env req s) as [-> | [resp Hrun]]; [exact IH|].
    apply OpenFiscalDay_Returned in Hrun as (_ & _ & Hcreate & _).
    apply Create_shape in Hcreate as (Hrec & _).
    unfold rows_unset. now rewrite Hrec.
  - destruct (CloseFiscalDay_store env req s)
      as [-> | (fiscalDay & fd' & counters & _ & _ & _ & ->)]; exact IH.
  - destruct (SubmitReceipt_cases env req s)
      as [[-> _] | (fiscalDay & sig & _ & _ & _ & _ & Hrun)];
      [exact IH|].
    cbv zeta in Hrun. rewrite Hrun. cbn [snd]. clear Hrun.
    intros r Hin. cbn in Hin. apply in_app_or in Hin as [Hin|[<-|[]]];
      [now apply IH|].
    repeat split; reflexivity.
Qed.

(** No reachable store holds a receipt that blocks the closing of its
    day: the colour that validation computes is not written to the row. *)
Lemma reachable_no_blocking_receipt (s : Store.t) (fiscalDayID : Z) :
  reachable s -> ~ has_blocking_receipt s fiscalDayID.
Proof.
  intros Hreach (r & Hin & _ & Hb).
  destruct (reachable_rows_unset s Hreach r Hin) as (_ & _ & Hc).
  destruct Hb as [Hb|Hb]; congruence.
Qed.

(** On every reachable store, a submission under a stored (deviceID,
    receiptGlobalNo) that passes the device and fiscal-day checks panics. *)
Lemma reachable_duplicate_panics (env : Env.t) (req : SubmitReceiptRequest.t) (s : Store.t)
    (device : Device.t) (fiscalDay : FiscalDay.t) (existing : Receipt.t) :
  reachable s ->
  repository.GetByDeviceID s (SubmitReceiptRequest.DeviceID req) = Some device ->
  Device.OperatingMode device = DeviceOperatingModeOnline ->
  repository.GetCurrent s (SubmitReceiptRequest.DeviceID req) = Some fiscalDay ->
  FiscalDay.Status fiscalDay = FiscalDayStatusOpened
  \/ FiscalDay.Status fiscalDay = FiscalDayStatusCloseFailed ->
  repository.GetByGlobalNo s (SubmitReceiptRequest.DeviceID req)
    (Receipt.ReceiptGlobalNo (SubmitReceiptRequest.Receipt_ req)) = Some existing ->
  SubmitReceipt env req s = (Panicked, s).
Proof.
  intros Hreach Hdev Honline Hcur Hst Hget.
  pose proof (find_In _ _ _ Hget) as [Hin _].
  destruct (reachable_rows_unset s Hreach existing Hin) as (Hdate & _).
  unfold service.SubmitReceipt. rewrite Hdev, Honline, Hcur.
  assert (Hgate : negb (bool_decide (FiscalDay.Status fiscalDay = FiscalDayStatusOpened))
                  && negb (bool_decide (FiscalDay.Status fiscalDay = FiscalDayStatusCloseFailed))
                  = false).
  { destruct Hst as [-> | ->]; reflexivity. }
  rewrite Hgate. cbn [bool_decide decide_rel DeviceOperatingMode_eq_dec].
  change (Receipt.ReceiptGlobalNo (Receipt.set_FiscalDayID _ ?x)) with (Receipt.ReceiptGlobalNo x).
  rewrite Hget, Hdate. reflexivity.
Qed.

(** No call of SubmitReceipt ends with RCPT04. *)
Lemma SubmitReceipt_never_RCPT04 (env : Env.t) (req : SubmitReceiptRequest.t) (s : Store.t)
    (status : Z) (title : string) :
  fst (SubmitReceipt env req s) <> APIError status title ErrCodeRCPT04.
Proof.
  unfold service.SubmitReceipt.
  repeat match goal with
         | |- context [match ?x with _ => _ end] => destruct x
         end; cbn; intros H; inversion H.
Qed.

Lemma reachable_open_days_without_mode (s : Store.t) :
  reachable s -> open_days_without_mode s.
Proof.
  intros Hreach.
  induction Hreach as [devices taxpayers taxes | env req s Hr IH | env req s Hr IH | env req s Hr IH].
  - intros d [].
  - destruct (OpenFiscalDay_store env req s) as [-> | [resp Hrun]]; [exact IH|].
    apply OpenFiscalDay_Returned in Hrun as (_ & _ & Hcreate & _).
    unfold repository.Create in Hcreate. destruct (_ || _); [discriminate|].
    inversion Hcreate as [Hs]. intros d Hin Hopen. cbn in Hin.
    apply in_app_or in Hin as [Hin|[<-|[]]]; [now apply IH|reflexivity].
  - destruct (CloseFiscalDay_store env req s)
      as [-> | (fiscalDay & fd' & counters & _ & _ & Hst & ->)]; [exact IH|].
    intros d' Hin Hopen. cbn in Hin. apply in_map_iff in Hin as (d & <- & Hin).
    destruct (Z.eq_dec (FiscalDay.ID d) (FiscalDay.ID fd')) as [E|E].
    + rewrite (update_row_Status fd' d E) in Hopen. contradiction.
    + rewrite (update_row_other fd' d E) in *. now apply IH.
  - destruct (SubmitReceipt_cases env req s)
      as [[-> _] | (fiscalDay & sig & Hcur & _ & _ & _ & Hrun)];
      [exact IH|].
    cbv zeta in Hrun. rewrite Hrun. cbn [snd]. clear Hrun.
    set (fd' := FiscalDay.set_LastReceiptGlobalNo _ fiscalDay).
    intros d' Hin Hopen. rewrite fiscal_days_Update in Hin. cbn in Hin.
    apply in_map_iff in Hin as (d & <- & Hin).
    destruct (Z.eq_dec (FiscalDay.ID d) (FiscalDay.ID fd')) as [E|E].
    + pose proof (GetCurrent_In _ _ _ Hcur) as [Hcin _].
      destruct (reachable_days_wf s Hr) as (Hnd & _).
      assert (d = fiscalDay).
      { apply (NoDup_map_inj_on FiscalDay.ID (Store.fiscal_days s)); try assumption. }
      subst d. rewrite (update_row_Status fd' fiscalDay E) in Hopen.
      unfold repository.update_row. rewrite E, Z.eqb_refl. cbn.
      apply IH; [exact Hcin|exact Hopen].
    + rewrite (update_row_other fd' d E) in *. now apply IH.
Qed.

(** In every reachable store, asking for the status of a device whose
    latest fiscal day is not closed dereferences the missing
    reconciliation mode. *)
Lemma reachable_status_of_open_day_panics (env : Env.t) (deviceID : Z) (s : Store.t)
    (fiscalDay : FiscalDay.t) :
  reachable s ->
  repository.GetCurrent s deviceID = Some fiscalDay ->
  FiscalDay.Status fiscalDay <> FiscalDayStatusClosed ->
  service.GetFiscalDayStatus env deviceID s = Panicked.
Proof.
  intros Hreach Hcur Hopen.
  pose proof (GetCurrent_In _ _ _ Hcur) as [Hin _].
  pose proof (reachable_open_days_without_mode s Hreach fiscalDay Hin Hopen) as Hmode.
  unfold service.GetFiscalDayStatus. rewrite Hcur, Hmode. reflexivity.
Qed.

End Properties.


(* ===================================================================== *)
(** ** The order of the tax tuples                                        *)
(* ===================================================================== *)

Lemma bubble_Permutation {A} (less : A -> A -> bool) (x : A) (acc : list A) :
  Permutation (x :: acc) (Go.bubble less x acc).
Proof.
  induction acc as [|y r IH]; cbn; [reflexivity|].
  destruct (less x y); [|reflexivity].
  rewrite <- IH. apply perm_swap.
Qed.

Lemma SortSlice_Permutation {A} (less : A -> A -> bool) (l : list A) :
  Permutation l (Go.SortSlice less l).
Proof.
  unfold Go.SortSlice. rewrite <- Permutation_rev.
  assert (G : forall acc, Permutation (l ++ acc)
                            (fold_left (fun acc x => Go.bubble less x acc) l acc)).
  { induction l as [|x r IH]; intros acc; cbn; [reflexivity|].
    rewrite <- IH, <- bubble_Permutation. apply Permutation_middle. }
  specialize (G []). now rewrite app_nil_r in G.
Qed.

Section SortedByInsertion.
Context {A : Type} (less : A -> A -> bool) (le : A -> A -> Prop).
Hypothesis le_trans : forall x y z, le x y -> le y z -> le x z.
Hypothesis not_less : forall x y, less x y = false -> le y x.
Hypothesis less_le : forall x y, less x y = true -> le x y.

Lemma bubble_descending (x : A) (acc : list A) :
  StronglySorted (fun a b => le b a) acc ->
  StronglySorted (fun a b => le b a) (Go.bubble less x acc).
Proof using le_trans not_less less_le.
  induction 1 as [|y r Hr IH Hy]; cbn.
  - constructor; constructor.
  - destruct (less x y) eqn:E.
    + constructor; [exact IH|].
      apply (Permutation_Forall (bubble_Permutation less x r)).
      constructor; [now apply less_le|exact Hy].
    + assert (Hyx : le y x) by now apply not_less.
      constructor; [now constructor|].
      constructor; [exact Hyx|].
      eapply List.Forall_impl; [|exact Hy]. intros z Hz. cbn in *. now apply (le_trans z y x).
Qed.

Lemma StronglySorted_snoc (R : A -> A -> Prop) (l : list A) (a : A) :
  StronglySorted R l -> Forall (fun y => R y a) l -> StronglySorted R (l ++ [a]).
Proof using Type.
  induction 1 as [|y r Hr IH Hy]; intros Ha; cbn.
  - constructor; constructor.
  - inversion Ha as [|? ? Hya Hra]; subst.
    constructor; [now apply IH|].
    apply List.Forall_app. split; [exact Hy|]. now constructor.
Qed.

Lemma StronglySorted_rev (R : A -> A -> Prop) (l : list A) :
  StronglySorted (fun a b => R b a) l -> StronglySorted R (rev l).
Proof using Type.
  induction 1 as [|y r Hr IH Hy]; cbn; [constructor|].
  apply StronglySorted_snoc; [exact IH|].
  apply List.Forall_forall. intros z Hz. apply in_rev in Hz.
  exact (proj1 (List.Forall_forall _ _) Hy z Hz).
Qed.

Lemma SortSlice_sorted (l : list A) : StronglySorted le (Go.SortSlice less l).
Proof using le_trans not_less less_le.
  unfold Go.SortSlice. apply StronglySorted_rev.
  assert (G : forall acc, StronglySorted (fun a b => le b a) acc ->
                          StronglySorted (fun a b => le b a)
                            (fold_left (fun acc x => Go.bubble less x acc) l acc)).
  { induction l as [|x r IH]; intros acc Hacc; cbn; [exact Hacc|].
    apply IH. now apply bubble_descending. }
  apply G. constructor.
Qed.
End SortedByInsertion.

Lemma leb_of_not_ltb (a b : string) : String.ltb a b = false -> String.leb b a = true.
Proof.
  unfold String.ltb, String.leb. rewrite (String.compare_antisym a b).
  destruct (String.compare b a); cbn; congruence.
Qed.

Lemma leb_of_ltb (a b : string) : String.ltb a b = true -> String.leb a b = true.
Proof.
  unfold String.ltb, String.leb. destruct (String.compare a b); congruence.
Qed.

Lemma leb_trans (a b c : string) :
  String.leb a b = true -> String.leb b c = true -> String.leb a c = true.
Proof.
  intros H1 H2. apply Is_true_true.
  apply (@transitivity _ String.le _ a b c); now apply Is_true_true.
Qed.

(** The tax tuples are written in ascending order of (taxID, taxCode),
    each tax of the receipt once. *)
Lemma receipt_taxes_sorted (receipt : Receipt.t) :
  let taxes := Go.SortSlice utils.tax_less (Receipt.ReceiptTaxes receipt) in
  Permutation (Receipt.ReceiptTaxes receipt) taxes /\ StronglySorted tax_le taxes.
Proof.
  split; [apply SortSlice_Permutation|].
  apply (SortSlice_sorted utils.tax_less tax_le).
  - intros x y z [H1|[E1 H1]] [H2|[E2 H2]]; unfold tax_le.
    + left. lia.
    + left. lia.
    + left. lia.
    + right. split; [congruence|]. exact (leb_trans _ _ _ H1 H2).
  - intros x y. unfold utils.tax_less, tax_le.
    destruct (Z.eqb_spec (ReceiptTax.TaxID x) (ReceiptTax.TaxID y)) as [E|E]; cbn.
    + intros H. right. split; [now symmetry|now apply leb_of_not_ltb].
    + intros H. apply Z.ltb_ge in H. left. lia.
  - intros x y. unfold utils.tax_less, tax_le.
    destruct (Z.eqb_spec (ReceiptTax.TaxID x) (ReceiptTax.TaxID y)) as [E|E]; cbn.
    + intros H. right. split; [exact E|now apply leb_of_ltb].
    + intros H. apply Z.ltb_lt in H. left. exact H.
Qed.

(** ** Comparison of counters *)

Lemma counterMap_snoc (l : list FiscalDayCounter.t) (c : FiscalDayCounter.t) :
  repository.counterMap (l ++ [c])
  = <[repository.counterKey c := FiscalDayCounter.FiscalCounterValue c]>
      (repository.counterMap l).
Proof. unfold repository.counterMap. now rewrite fold_left_app. Qed.

Lemma counterMap_lookup_Some (l : list FiscalDayCounter.t) (k : string) (v : float) :
  repository.counterMap l !! k = Some v ->
  exists c, In c l /\ repository.counterKey c = k
            /\ FiscalDayCounter.FiscalCounterValue c = v.
Proof.
  induction l as [|c l IH] using rev_ind; intros H.
  - unfold repository.counterMap in H. cbn in H. now rewrite lookup_empty in H.
  - rewrite counterMap_snoc in H.
    destruct (decide (repository.counterKey c = k)) as [E|E].
    + subst k. rewrite lookup_insert_eq in H. inversion H.
      exists c. split; [apply in_or_app; right; now left|now split].
    + rewrite lookup_insert_ne in H by exact E.
      destruct (IH H) as (c' & Hin & Hk & Hv).
      exists c'. split; [apply in_or_app; now left|now split].
Qed.

Lemma counterMap_lookup_In (l : list FiscalDayCounter.t) (c : FiscalDayCounter.t) :
  In c l -> is_Some (repository.counterMap l !! repository.counterKey c).
Proof.
  induction l as [|c' l IH] using rev_ind; intros Hin; [destruct Hin|].
  rewrite counterMap_snoc.
  destruct (decide (repository.counterKey c' = repository.counterKey c)) as [E|E].
  - rewrite E, lookup_insert_eq. now eexists.
  - rewrite lookup_insert_ne by exact E.
    apply in_app_or in Hin as [Hin|[->|[]]]; [now apply IH|contradiction].
Qed.

Lemma counterMap_lookup_NoDup (l : list FiscalDayCounter.t) (c : FiscalDayCounter.t) :
  List.NoDup (map repository.counterKey l) -> In c l ->
  repository.counterMap l !! repository.counterKey c
  = Some (FiscalDayCounter.FiscalCounterValue c).
Proof.
  induction l as [|c' l IH] using rev_ind; intros Hnd Hin; [destruct Hin|].
  rewrite map_app in Hnd. cbn in Hnd.
  apply List.NoDup_remove in Hnd as [Hnd Hnotin]. rewrite app_nil_r in Hnd, Hnotin.
  rewrite counterMap_snoc.
  apply in_app_or in Hin as [Hin|[->|[]]].
  - rewrite lookup_insert_ne; [now apply IH|].
    intros E. apply Hnotin. rewrite E. now apply in_map.
  - now rewrite lookup_insert_eq.
Qed.

Lemma counter_close_within (m : gmap string float) (k : string) (v : float) :
  repository.counter_close m (k, v) = true <->
  exists w, m !! k = Some w /\ within_tolerance v w.
Proof.
  unfold within_tolerance, repository.counter_close. cbn [fst snd].
  destruct (m !! k) as [w|]; split.
  - intros H. exists w. split; [reflexivity|]. now apply negb_true_iff.
  - intros (w' & E & H). inversion E; subst. now apply negb_true_iff.
  - discriminate.
  - intros (w' & E & _). discriminate.
Qed.

(** What a successful comparison establishes about the two maps. *)
Lemma compareCounters_true (submitted actual : list FiscalDayCounter.t) :
  repository.compareCounters submitted actual = true <->
  size (repository.counterMap submitted) = size (repository.counterMap actual)
  /\ forall k v, repository.counterMap submitted !! k = Some v ->
       exists w, repository.counterMap actual !! k = Some w /\ within_tolerance v w.
Proof.
  unfold repository.compareCounters. cbv zeta.
  destruct (Nat.eqb_spec (size (repository.counterMap submitted))
                         (size (repository.counterMap actual))) as [E|E]; cbn [negb].
  - rewrite forallb_forall. split.
    + intros H. split; [exact E|]. intros k v Hk.
      apply counter_close_within, H, list_elem_of_In, elem_of_map_to_list. exact Hk.
    + intros [_ H] [k v] Hin.
      apply counter_close_within, H, elem_of_map_to_list, list_elem_of_In. exact Hin.
  - split; [discriminate|]. intros [E' _]. contradiction.
Qed.

(** When no two submitted counters share a key, a successful comparison
    means what its name says: every submitted counter has a computed
    counter of the same key whose value is within the tolerance, and every
    computed counter has a submitted counter of the same key. *)
Lemma compareCounters_distinct_keys (submitted actual : list FiscalDayCounter.t) :
  List.NoDup (map repository.counterKey submitted) ->
  repository.compareCounters submitted actual = true ->
  (forall c, In c submitted ->
     exists a, In a actual /\ repository.counterKey a = repository.counterKey c
       /\ within_tolerance (FiscalDayCounter.FiscalCounterValue c)
                           (FiscalDayCounter.FiscalCounterValue a))
  /\ (forall a, In a actual ->
        exists c, In c submitted /\ repository.counterKey c = repository.counterKey a).
Proof.
  intros Hnd Hcmp. apply compareCounters_true in Hcmp as [Hsize Hall]. split.
  - intros c Hin.
    destruct (Hall _ _ (counterMap_lookup_NoDup submitted c Hnd Hin)) as (w & Hw & Htol).
    apply counterMap_lookup_Some in Hw as (a & Ha & Hk & Hv).
    exists a. subst w. now repeat split.
  - intros a Hin.
    assert (Hsub : dom (repository.counterMap submitted)
                   ⊆ dom (repository.counterMap actual)).
    { intros k Hk. apply elem_of_dom in Hk as [v Hv].
      destruct (Hall k v Hv) as (w & Hw & _). apply elem_of_dom. now exists w. }
    assert (Heq : dom (repository.counterMap submitted)
                  = dom (repository.counterMap actual)).
    { apply set_subseteq_size_eq; [exact Hsub|]. rewrite !size_dom. lia. }
    pose proof (counterMap_lookup_In actual a Hin) as Hsome.
    apply elem_of_dom in Hsome. rewrite <- Heq in Hsome.
    apply elem_of_dom in Hsome as [v Hv].
    apply counterMap_lookup_Some in Hv as (c & Hc & Hk & _).
    now exists c.
Qed.
(* ===================================================================== *)
(** ** Properties of the canonical codec                                  *)
(* ===================================================================== *)

(** C9 (the code departs from the claim).  Item 6 of the receipt encoding
    is [int64(receiptTotal * 100)], which discards the fraction: for the
    totals 1.235, -1.235 and 0.29 the encoding carries 123, -123 and 28,
    while the nearest integer cents are 124, -124 and 29. *)
Theorem C9_total_cents_are_truncated :
  utils.totalCents (sample.invoice 1 1 sample.f_1_235 []) = 123
  /\ nearest_cent sample.f_1_235 = 124
  /\ utils.totalCents (sample.invoice 1 1 (PrimFloat.opp sample.f_1_235) []) = -123
  /\ nearest_cent (PrimFloat.opp sample.f_1_235) = -124
  /\ utils.totalCents (sample.invoice 1 1 sample.f_0_29 []) = 28
  /\ nearest_cent sample.f_0_29 = 29
  /\ utils.receipt_canonical (sample.invoice 1 1 sample.f_1_235 [])
     = "1001FISCALINVOICEUSD12024-01-01T10:00:00123".
Proof. vm_compute. repeat split; reflexivity. Qed.

(** C5 (the code departs from the claim).  For a SaleByTax counter and a
    BalanceByMoneyType/Cash counter the fiscal-day encoding carries the
    enum positions 0, 6 and 0 where the claim has the names SALEBYTAX,
    BALANCEBYMONEYTYPE and CASH. *)
Theorem C5_counters_encoded_by_position :
  utils.counter_bytes (sample.saleByTax 100%float) = "0USD15.0010000"
  /\ counter_bytes_by_name FiscalCounterTypeSaleByTax "USD" (Some 15%float) None 100%float
     = "SALEBYTAXUSD15.0010000"
  /\ utils.counter_bytes (sample.balanceCash 50%float) = "6USD05000"
  /\ counter_bytes_by_name FiscalCounterTypeBalanceByMoneyType "USD" None
       (Some MoneyTypeCash) 50%float
     = "BALANCEBYMONEYTYPEUSDCASH5000"
  /\ utils.fiscal_day_hash_data 1001 1 "2024-01-01"
       [sample.balanceCash 50%float; sample.saleByTax 100%float]
     = "100112024-01-010USD15.00100006USD05000"
  /\ utils.fiscal_day_server_hash_data 1001 1 "2024-01-01" "2024-01-01T18:00:00"
       FiscalDayReconciliationModeManual
       [sample.balanceCash 50%float; sample.saleByTax 100%float] None
     = "100112024-01-012024-01-01T18:00:00MANUAL0USD15.00100006USD05000".
Proof. vm_compute. repeat split; reflexivity. Qed.

(* ===================================================================== *)
(** ** Properties of the validation rules RCPT011 and RCPT012             *)
(* ===================================================================== *)

Lemma addError_changes (code message : string) (color : ValidationColor)
    (r : ValidationResult.t) :
  service.addError code message color r <> r.
Proof.
  intros H. apply (f_equal ValidationResult.Errors) in H. cbn in H.
  apply (f_equal (@length string)) in H.
  rewrite length_app in H. cbn in H. lia.
Qed.

Lemma not_adds_self (code : string) (color : ValidationColor) (r : ValidationResult.t) :
  ~ adds code color r r.
Proof. intros [message H]. symmetry in H. exact (addError_changes _ _ _ _ H). Qed.

(** C8, as amended.  With a previous receipt (as loaded from the store,
    so with its counters in the INTEGER range): RCPT011 is added, Red,
    exactly when receiptCounter differs from the predecessor's + 1;
    RCPT012 is added, Red, exactly when receiptGlobalNo differs from the
    predecessor's + 1 and is not 1.  Without a previous receipt: RCPT011
    is added, Grey, exactly when receiptCounter is not 1; RCPT012 is
    added, Grey, exactly when neither receiptGlobalNo nor receiptCounter
    is 1.  A rule that adds nothing leaves the result as it was. *)
Theorem C8_continuity_rules (receipt previous : Receipt.t) (result : ValidationResult.t)
    (Hcounter : int4 (Receipt.ReceiptCounter previous) = true)
    (Hglobal : int4 (Receipt.ReceiptGlobalNo previous) = true) :
  let counter := Receipt.ReceiptCounter receipt in
  let globalNo := Receipt.ReceiptGlobalNo receipt in
  let r011 := service.rule_RCPT011 receipt (Some previous) result in
  let r012 := service.rule_RCPT012 receipt (Some previous) result in
  let g011 := service.rule_RCPT011 receipt None result in
  let g012 := service.rule_RCPT012 receipt None result in
  (adds "RCPT011" ValidationColorRed result r011
     <-> counter <> Receipt.ReceiptCounter previous + 1)
  /\ (counter = Receipt.ReceiptCounter previous + 1 -> r011 = result)
  /\ (adds "RCPT012" ValidationColorRed result r012
        <-> globalNo <> Receipt.ReceiptGlobalNo previous + 1 /\ globalNo <> 1)
  /\ (globalNo = Receipt.ReceiptGlobalNo previous + 1 \/ globalNo = 1 -> r012 = result)
  /\ (adds "RCPT011" ValidationColorGrey result g011 <-> counter <> 1)
  /\ (counter = 1 -> g011 = result)
  /\ (adds "RCPT012" ValidationColorGrey result g012 <-> globalNo <> 1 /\ counter <> 1)
  /\ (globalNo = 1 \/ counter = 1 -> g012 = result).
Proof.
  intros counter globalNo r011 r012 g011 g012.
  subst r011 r012 g011 g012. unfold service.rule_RCPT011, service.rule_RCPT012.
  rewrite (add_1_int4 _ Hcounter), (add_1_int4 _ Hglobal).
  fold counter globalNo.
  destruct (Z.eqb_spec counter (Receipt.ReceiptCounter previous + 1)) as [E1|E1];
  destruct (Z.eqb_spec globalNo (Receipt.ReceiptGlobalNo previous + 1)) as [E2|E2];
  destruct (Z.eqb_spec counter 1) as [E3|E3];
  destruct (Z.eqb_spec globalNo 1) as [E4|E4]; cbn [negb andb];
  repeat split; intros;
  try congruence;
  try (exfalso; eapply not_adds_self; eassumption);
  try (eexists; reflexivity);
  try tauto; try lia.
Qed.

(** The instance of C8 for the second receipt of a day, numbered 2 and 6
    after a first receipt numbered 1 and 5. *)
Lemma C8_continuity_rules_witness :
  int4 1 = true /\ int4 5 = true
  /\ service.rule_RCPT011 (sample.invoice 2 6 100%float []) (Some (sample.invoice 1 5 100%float []))
       (ValidationResult.mk true None [])
     = ValidationResult.mk true None [].
Proof.
  split; [reflexivity|]. split; [reflexivity|].
  pose proof (C8_continuity_rules (sample.invoice 2 6 100%float [])
                (sample.invoice 1 5 100%float []) (ValidationResult.mk true None [])
                eq_refl eq_refl) as H.
  cbv zeta in H.
  destruct H as (_ & H & _). apply H. reflexivity.
Defined.

(** C8, as stated, fails.  With a previous receipt whose receiptGlobalNo
    is 5, a receipt with receiptGlobalNo 1 differs from 5 + 1 and yet
    RCPT012 is not added; with no previous receipt, a receipt with
    receiptCounter 1 and receiptGlobalNo 7 gets no error at all, Grey or
    other. *)
Lemma C8_counterexample :
  let empty := ValidationResult.mk true None [] in
  let previous := sample.invoice 1 5 100%float [] in
  let restart := sample.invoice 2 1 100%float [] in
  let first := sample.invoice 1 7 100%float [] in
  Receipt.ReceiptGlobalNo restart <> Receipt.ReceiptGlobalNo previous + 1
  /\ service.rule_RCPT012 restart (Some previous) empty = empty
  /\ Receipt.ReceiptGlobalNo first <> 1
  /\ service.rule_RCPT012 first None (service.rule_RCPT011 first None empty) = empty.
Proof. cbn. repeat split; try reflexivity; lia. Qed.

(* ===================================================================== *)
(** ** GetFiscalDayStatus                                                 *)
(* ===================================================================== *)

Lemma GetFiscalDayStatus_nil_mode (env : Env.t) (deviceID : Z) (s : Store.t)
    (fiscalDay : FiscalDay.t) :
  repository.GetCurrent s deviceID = Some fiscalDay ->
  FiscalDay.ReconciliationMode fiscalDay = None ->
  service.GetFiscalDayStatus env deviceID s = Panicked.
Proof.
  intros Hcur Hmode. unfold service.GetFiscalDayStatus.
  rewrite Hcur, Hmode. reflexivity.
Qed.

(** C10 (the code departs from the claim).  Device 1001 opens its first
    fiscal day; the day is stored Opened with no reconciliation mode, and
    GetFiscalDayStatus for the device then panics instead of returning. *)
Theorem C10_status_of_opened_day_panics :
  let opened := service.OpenFiscalDay (sample.env "op-1" 0)
                  (OpenFiscalDayRequest.mk 1001) sample.store0 in
  fst opened = Returned (OpenFiscalDayResponse.mk "op-1" 1)
  /\ repository.GetCurrent (snd opened) 1001
     = Some (FiscalDay.mk 1 1001 1 (Go.mkTime 2024 1 1 10 0 0) None
               FiscalDayStatusOpened None None None None None)
  /\ service.GetFiscalDayStatus (sample.env "op-2" 1) 1001 (snd opened) = Panicked.
Proof. vm_compute. repeat split; reflexivity. Qed.

(* ===================================================================== *)
(** ** Concrete runs                                                      *)
(* ===================================================================== *)










(** C2 (the code departs from the claim).  The first receipt of device
    1001 is stored with the hash [hash1]; the same receipt with the total
    changed to 200.00 has another hash; submitted under the same device
    and global number, it is not rejected with RCPT04: the call panics on
    the row as SubmitReceipt stored it (no server date, no server
    signature), and returns the stored signature, date and identifier
    once these columns are filled. *)
Theorem C2_changed_duplicate_not_rejected :
  fst (sample.SubmitReceipt (sample.env "op-2" 5) sample.submit1 sample.store1)
  = Returned (SubmitReceiptResponse.mk "op-2" 1 (Go.mkTime 2024 1 1 10 0 5) sample.signature1)
  /\ map Receipt.ReceiptHash (Store.receipts sample.store2) = [Some sample.hash1]
  /\ map Receipt.ServerDate (Store.receipts sample.store2) = [None]
  /\ map Receipt.ReceiptServerSignature (Store.receipts sample.store2) = [None]
  /\ utils.GenerateReceiptHash sample.sha256
       (Receipt.set_FiscalDayID 1 sample.receipt1_changed) None
     = "sha256(1001FISCALINVOICEUSD12024-01-01T10:00:0020000A15.00130410000)"
  /\ sample.SubmitReceipt (sample.env "op-3" 6) sample.submit1_changed sample.store2
     = (Panicked, sample.store2)
  /\ sample.SubmitReceipt (sample.env "op-3" 6) sample.submit1 sample.store2
     = (Panicked, sample.store2)
  /\ sample.SubmitReceipt (sample.env "op-3" 6) sample.submit1_changed
       sample.store2_completed
     = (Returned (SubmitReceiptResponse.mk "op-3" 1 (Go.mkTime 2024 1 1 10 0 5)
                    sample.signature1), sample.store2_completed).
Proof. vm_compute. repeat split; reflexivity. Qed.

(** C4 (the code departs from the claim).  The server computes 100.00 for
    the SaleByTax counter and 13.04 for the SaleTaxByTax counter.  The
    request names the SaleByTax counter twice, with 999.00 and then with
    100.00: the later entry replaces the earlier one in the map of
    submitted counters, the comparison succeeds, and the day is closed in
    Manual mode with the counter of 999.00 among the stored ones. *)
Theorem C4_repeated_counter_accepted :
  let submitted := CloseFiscalDayRequest.FiscalDayCounters sample.close_twice in
  let actual := sample.calculateActualCounters (Store.receipts sample.store2) 1 in
  let closed := sample.CloseFiscalDay (sample.env "op-3" 30) sample.close_twice
                  sample.store2 in
  repository.counterKey (sample.saleByTax 999%float)
  = repository.counterKey (sample.saleByTax 100%float)
  /\ repository.counter_close (repository.counterMap actual)
       (repository.counterKey (sample.saleByTax 999%float), 999%float) = false
  /\ repository.compareCounters submitted actual = true
  /\ (exists signature,
        fst closed = Returned (CloseFiscalDayResponse.mk "op-3" signature submitted []))
  /\ map FiscalDay.Status (Store.fiscal_days (snd closed)) = [FiscalDayStatusClosed]
  /\ map FiscalDay.ReconciliationMode (Store.fiscal_days (snd closed))
     = [Some FiscalDayReconciliationModeManual]
  /\ Store.fiscal_counters (snd closed)
     = [(1, sample.saleByTax 999%float); (1, sample.saleByTax 100%float);
        (1, sample.saleTaxByTax sample.f_13_04)].
Proof.
  vm_compute. split; [reflexivity|]. split; [reflexivity|]. split; [reflexivity|].
  split; [eexists; reflexivity|]. repeat split; reflexivity.
Qed.
